(** * api_server.py: orchestration and caching layer of the LEGO mosaic service

    A shallow embedding of [src/api_server.py]: the preset loader, the tile
    asset resolver with its process-wide cache, the startup hook and the
    [POST /mosaic3d] handler, followed by the properties the specification
    states about them.

    Python values are modelled as the code has them: floats are binary64
    ([PrimFloat.float]), ints are [Z], [pathlib] paths are a root and a list of
    components, the two module globals live in a [State] record next to a heap
    of dict objects, and a ghost [trace] records every disk access and every
    call of an external stage in program order. *)

From Stdlib Require Import ZArith PrimFloat SpecFloat FloatOps Ascii.
From stdpp Require Import gmap strings list.

Open Scope Z_scope.

Local Set Warnings "-register-all".

(** ** Strings *)

Module Str.

(** [s.startswith(p)] *)
Fixpoint starts_with (p s : string) : bool :=
  match p, s with
  | EmptyString, _ => true
  | String a p', String b s' => if decide (a = b) then starts_with p' s' else false
  | String _ _, EmptyString => false
  end.

(** [name in msg] *)
Fixpoint contains (name msg : string) : bool :=
  starts_with name msg ||
  match msg with
  | EmptyString => false
  | String _ rest => contains name rest
  end.

(** [s.split(sep)] for a one-character separator; [cur] is the component
    being read. *)
Fixpoint split_aux (sep : ascii) (cur : string) (s : string) : list string :=
  match s with
  | EmptyString => [cur]
  | String c rest =>
      if decide (c = sep) then cur :: split_aux sep EmptyString rest
      else split_aux sep (cur +:+ String c EmptyString) rest
  end.

Definition split (sep : ascii) (s : string) : list string :=
  split_aux sep EmptyString s.

(** [sep.join(parts)] *)
Definition join (sep : string) (parts : list string) : string :=
  String.concat sep parts.

Definition newline : string := String (ascii_of_nat 10) EmptyString.

End Str.

(** [msg] mentions [name]: the text of [name] occurs in [msg]. *)
Definition mentions (msg name : string) : Prop :=
  ∃ pre post : string, msg = pre +:+ name +:+ post.

(** ** pathlib (POSIX flavour) *)

Inductive Root := Relative | Slash | DoubleSlash.

Record Path := mkPath { root : Root; parts : list string }.

Global Instance Root_eq_dec : EqDecision Root.
Proof. solve_decision. Defined.

Global Instance Path_eq_dec : EqDecision Path.
Proof. solve_decision. Defined.

Definition path_root (s : string) : Root :=
  if Str.starts_with "///" s then Slash
  else if Str.starts_with "//" s then DoubleSlash
  else if Str.starts_with "/" s then Slash
  else Relative.

Definition keep_part (c : string) : bool :=
  negb (bool_decide (c = EmptyString)) && negb (bool_decide (c = ".")).

(** [Path(s)]: empty and ["."] components are dropped, [".."] is kept. *)
Definition P (s : string) : Path :=
  {| root := path_root s; parts := List.filter keep_part (Str.split "/" s) |}.

(** [p / s] *)
Definition joinpath (p : Path) (s : string) : Path :=
  let q := P s in
  match root q with
  | Relative => {| root := root p; parts := parts p ++ parts q |}
  | _ => q
  end.

Infix "</>" := joinpath (at level 40, left associativity).

(** [p.parent] *)
Definition parent (p : Path) : Path :=
  {| root := root p; parts := removelast (parts p) |}.

(** [str(p)] *)
Definition path_str (p : Path) : string :=
  match root p, parts p with
  | Relative, [] => "."
  | Relative, ps => Str.join "/" ps
  | Slash, ps => "/" +:+ Str.join "/" ps
  | DoubleSlash, ps => "//" +:+ Str.join "/" ps
  end.

(** ** Exceptions *)

Inductive exn :=
| FileNotFoundError (msg : string)
| IOError (msg : string)
| KeyError (msg : string)
| TypeError (msg : string)
| ValueError (msg : string)
| OverflowError (msg : string)
| AttributeError (msg : string)
| HTTPException (status_code : Z) (detail : string)
| ExternalError (msg : string).   (* raised inside PIL, json or mosaic_core *)

(** [str(e)], as interpolated by [f"...{e}"]. *)
Definition exn_str (e : exn) : string :=
  match e with
  | FileNotFoundError m | IOError m | KeyError m | TypeError m | ValueError m
  | OverflowError m | AttributeError m | ExternalError m => m
  | HTTPException c d => d
  end.

(** ** Python values as produced by [json.load] *)

Inductive pyvalue :=
| PyNone
| PyBool (b : bool)
| PyInt (z : Z)
| PyFloat (f : float)
| PyStr (s : string)
| PyList (l : list pyvalue)
| PyDict (d : gmap string pyvalue).

(** [float(n)] for an int: round to nearest even, [OverflowError] beyond the
    binary64 range. *)
Definition float_of_int (z : Z) : exn + float :=
  let f := SF2Prim (binary_normalize 53 1024 z 0 false) in
  if PrimFloat.is_infinity f then inl (OverflowError "int too large to convert to float")
  else inr f.

(** [int(x)] for a float: truncation towards zero. *)
Definition int_of_float (f : float) : exn + Z :=
  match Prim2SF f with
  | S754_zero _ => inr 0
  | S754_finite sg m e =>
      let mag := match e with
                 | Z0 => Zpos m
                 | Zpos k => Z.shiftl (Zpos m) (Zpos k)
                 | Zneg k => Z.shiftr (Zpos m) (Zpos k)
                 end in
      inr (if sg then - mag else mag)
  | S754_infinity _ => inl (OverflowError "cannot convert float infinity to integer")
  | S754_nan => inl (ValueError "cannot convert float NaN to integer")
  end.

Section Coercions.

(** Parsing of numeric strings is the interpreter's: [None] is a
    [ValueError]. *)
Variable float_of_str : string → option float.
Variable int_of_str : string → option Z.

(** [float(v)] *)
Definition py_float (v : pyvalue) : exn + float :=
  match v with
  | PyFloat f => inr f
  | PyInt z => float_of_int z
  | PyBool b => inr (if b then 1%float else 0%float)
  | PyStr s =>
      match float_of_str s with
      | Some f => inr f
      | None => inl (ValueError ("could not convert string to float: " +:+ s))
      end
  | PyNone | PyList _ | PyDict _ =>
      inl (TypeError "float() argument must be a string or a real number")
  end.

(** [int(v)] *)
Definition py_int (v : pyvalue) : exn + Z :=
  match v with
  | PyInt z => inr z
  | PyBool b => inr (if b then 1 else 0)
  | PyFloat f => int_of_float f
  | PyStr s =>
      match int_of_str s with
      | Some z => inr z
      | None => inl (ValueError ("invalid literal for int() with base 10: " +:+ s))
      end
  | PyNone | PyList _ | PyDict _ =>
      inl (TypeError "int() argument must be a string, a bytes-like object or a real number")
  end.

End Coercions.

(** Modelled from the spec: the [Preset] record of [mosaic_core], six numeric
    fields ([unsharp_percent] an integer, the other five reals). *)
Record Preset := mkPreset {
  blur : float;
  unsharp_radius : float;
  unsharp_percent : Z;
  contrast : float;
  brightness : float;
  gamma : float }.

(** ** Module constants *)

Definition PRESET_PATH : Path := P "lego_mosaic_best_preset (4).json".

(** Palette index -> tile file name, in insertion order. *)
Definition TILE_MAP : list (Z * string) :=
  [ (0, "RGB (220, 224, 225).png");
    (1, "RGB (150, 160, 171).png");
    (2, "RGB (88, 99, 110).png");
    (3, "RGB (35, 46, 59).png");
    (4, "RGB (20, 25, 30).png") ].

(** [d.values()] and [d[k]] on an insertion-ordered dict. *)
Definition dict_values {K V} (d : list (K * V)) : list V := snd <$> d.

Fixpoint dict_getitem {V} (d : list (Z * V)) (k : Z) : option V :=
  match d with
  | [] => None
  | (k', v) :: rest => if decide (k' = k) then Some v else dict_getitem rest k
  end.

(** ** The world outside the process *)

Definition bytes := list Byte.byte.

(** Heap address of a dict object. *)
Definition loc := nat.

Section Service.

(** PIL images and the palette-index grid are opaque to this layer. *)
Context {Image Indices : Type}.

(** What the disk answers: [Path.exists()], [Image.open(p).convert("RGB")]
    (the text of the exception when it raises) and [json.load] of an opened
    file. *)
Record FS := mkFS {
  fs_exists : Path → bool;
  fs_open_rgb : Path → string + Image;
  fs_json : Path → exn + pyvalue }.

(** The uploaded file: what [await file.read()] gives. *)
Record UploadFile := mkUpload { upload_read : string + bytes }.

(** Ghost trace: disk accesses and calls that leave this module. *)
Inductive event :=
| EvExists (p : Path)
| EvImageOpen (p : Path)
| EvJsonLoad (p : Path)
| EvFileRead
| EvDecode (raw : bytes)
| EvLoadTileImages
| EvApplyPresetOnce (img : Image) (preset : Preset) (size max_per_color : Z)
| EvIdxImage (img : Image)
| EvRender (indices : Indices) (tile_images : loc) (max_output_size : Z * Z)
| EvSavePng (img : Image).

Definition is_disk_event (e : event) : bool :=
  match e with
  | EvExists _ | EvImageOpen _ | EvJsonLoad _ => true
  | _ => false
  end.

(** One of the three processing stages of [mosaic_core]. *)
Definition is_stage_event (e : event) : bool :=
  match e with
  | EvApplyPresetOnce _ _ _ _ | EvIdxImage _ | EvRender _ _ _ => true
  | _ => false
  end.

(** ** Process state: the two module globals, the dict objects, the trace *)

Record State := mkState {
  _tile_cache : option loc;
  _global_preset : option Preset;
  heap : list (gmap Z Image);
  trace : list event }.

Definition initial_state : State :=
  {| _tile_cache := None; _global_preset := None; heap := []; trace := [] |}.

(** ** A state and exception monad *)

Definition M (A : Type) : Type := State → (exn + A) * State.

Definition ret {A} (a : A) : M A := λ s, (inr a, s).

Definition bind {A B} (k : A → M B) (m : M A) : M B :=
  λ s, match m s with
       | (inr a, s') => k a s'
       | (inl e, s') => (inl e, s')
       end.

Global Instance M_ret : MRet M := @ret.
Global Instance M_bind : MBind M := @bind.

Definition raise {A} (e : exn) : M A := λ s, (inl e, s).

(** [try: m  except Exception as e: h e] *)
Definition try_except {A} (m : M A) (h : exn → M A) : M A :=
  λ s, match m s with
       | (inr a, s') => (inr a, s')
       | (inl e, s') => h e s'
       end.

Definition lift {A} (r : exn + A) : M A := λ s, (r, s).

Definition log (e : event) : M unit :=
  λ s, (inr tt, {| _tile_cache := _tile_cache s; _global_preset := _global_preset s;
                   heap := heap s; trace := trace s ++ [e] |}).

Definition get_tile_cache : M (option loc) := λ s, (inr (_tile_cache s), s).
Definition get_global_preset : M (option Preset) := λ s, (inr (_global_preset s), s).

Definition set_tile_cache (c : option loc) : M unit :=
  λ s, (inr tt, {| _tile_cache := c; _global_preset := _global_preset s;
                   heap := heap s; trace := trace s |}).

Definition set_global_preset (p : option Preset) : M unit :=
  λ s, (inr tt, {| _tile_cache := _tile_cache s; _global_preset := p;
                   heap := heap s; trace := trace s |}).

(** [{}]: a fresh dict object. *)
Definition new_dict : M loc :=
  λ s, (inr (length (heap s)),
        {| _tile_cache := _tile_cache s; _global_preset := _global_preset s;
           heap := heap s ++ [∅]; trace := trace s |}).

(** [d[k] = v] on the object at [l]. *)
Definition dict_setitem (l : loc) (k : Z) (v : Image) : M unit :=
  λ s, (inr tt,
        {| _tile_cache := _tile_cache s; _global_preset := _global_preset s;
           heap := alter (λ d : gmap Z Image, <[k := v]> d) l (heap s);
           trace := trace s |}).

Definition deref (l : loc) : M (gmap Z Image) :=
  λ s, match heap s !! l with
       | Some d => (inr d, s)
       | None => (inl (ExternalError "dangling reference"), s)
       end.

End Service.

Arguments FS : clear implicits.
Arguments event : clear implicits.
Arguments State : clear implicits.
Arguments M : clear implicits.


Section Resolver.

Context {Image Indices : Type}.

(** [__file__] of the service module. *)
Variable module_file : string.

Abbreviation FS := (FS Image).
Abbreviation M := (M Image Indices).
Abbreviation event := (event Image Indices).
Abbreviation State := (State Image Indices).

(** [p.exists()] *)
Definition path_exists (fs : FS) (p : Path) : M bool :=
  log (EvExists p : event);; mret (fs_exists fs p).

(** [Image.open(p).convert("RGB")] *)
Definition image_open_rgb (fs : FS) (p : Path) : M Image :=
  log (EvImageOpen p : event);;
  match fs_open_rgb fs p with
  | inr img => mret img
  | inl msg => raise (ExternalError msg)
  end.

(** [TILE_MAP[k]] *)
Definition TILE_MAP_getitem (k : Z) : M string :=
  match dict_getitem TILE_MAP k with
  | Some v => mret v
  | None => raise (KeyError "0")
  end.

Definition search_paths (tiles_dir : string) : list Path :=
  [ P tiles_dir;                          (* user-specified directory *)
    P "tiles";                            (* default tiles directory *)
    P "/mnt/data";
    P ".";                                (* project root *)
    parent (P module_file) </> "tiles" ]. (* next to api_server.py *)

(** Lines 108-114: the first search path that exists and holds the probe
    file; the loop breaks there. *)
Fixpoint probe_loop (fs : FS) (paths : list Path) : M (option Path) :=
  match paths with
  | [] => mret None
  | search_path :: rest =>
      dir_ok ← path_exists fs search_path;
      if dir_ok : bool then
        name ← TILE_MAP_getitem 0;
        let test_file := search_path </> name in
        file_ok ← path_exists fs test_file;
        if file_ok : bool then mret (Some search_path) else probe_loop fs rest
      else probe_loop fs rest
  end.

(** Lines 116-121: any catalog file in the current directory selects it. *)
Fixpoint fallback_loop (fs : FS) (filenames : list string) : M (option Path) :=
  match filenames with
  | [] => mret None
  | filename :: rest =>
      ok ← path_exists fs (P filename);
      if ok : bool then mret (Some (P ".")) else fallback_loop fs rest
  end.

(** Lines 100-121. *)
Definition select_tiles_path (fs : FS) (tiles_dir : string) : M (option Path) :=
  tiles_path ← probe_loop fs (search_paths tiles_dir);
  match tiles_path with
  | Some _ => mret tiles_path
  | None => fallback_loop fs (dict_values TILE_MAP)
  end.

Definition missing_assets_message : string :=
  "Tile images not found. " +:+
  "Please put the following PNG files in 'tiles/' or project root:" +:+ Str.newline +:+
  Str.join Str.newline ((λ fname, "  - " +:+ fname) <$> dict_values TILE_MAP).

Definition tile_not_found_message (filename : string) (tiles_path : Path) : string :=
  "Tile image not found: " +:+ filename +:+ " in " +:+ path_str tiles_path +:+ ". " +:+
  "Please ensure all tile images are present.".

Definition tile_load_failed_message (filename : string) (e : exn) : string :=
  "Failed to load tile image " +:+ filename +:+ ": " +:+ exn_str e.

(** Lines 132-144: every catalog entry is loaded from [tiles_path] into the
    dict at [tile_images]. *)
Fixpoint load_loop (fs : FS) (tiles_path : Path) (tile_images : loc)
    (items : list (Z * string)) : M unit :=
  match items with
  | [] => mret tt
  | (idx, filename) :: rest =>
      let tile_path := tiles_path </> filename in
      present ← path_exists fs tile_path;
      if negb present then
        raise (FileNotFoundError (tile_not_found_message filename tiles_path))
      else
        try_except
          (tile_img ← image_open_rgb fs tile_path;
           dict_setitem tile_images idx tile_img)
          (λ e, raise (IOError (tile_load_failed_message filename e)));;
        load_loop fs tiles_path tile_images rest
  end.

(** Lines 83-147. *)
Definition load_tile_images (fs : FS) (tiles_dir : string) : M loc :=
  cached ← get_tile_cache;
  match cached with
  | Some tile_images => mret tile_images
  | None =>
      tiles_path ← select_tiles_path fs tiles_dir;
      match tiles_path with
      | None => raise (FileNotFoundError missing_assets_message)
      | Some tiles_path =>
          tile_images ← new_dict;
          load_loop fs tiles_path tile_images TILE_MAP;;
          set_tile_cache (Some tile_images);;
          mret tile_images
      end
  end.

End Resolver.

Section Pipeline.

Context {Image Indices : Type}.

Variable module_file : string.

(** Numeric-string parsing of the interpreter (see [py_float], [py_int]). *)
Variable float_of_str : string → option float.
Variable int_of_str : string → option Z.

(** The collaborators imported from [mosaic_core] and PIL; [inl msg] is a
    raised exception with text [msg]. *)
Variable MAX_PER_COLOR : Z.
Variable decode_rgb : bytes → string + Image.
Variable apply_preset_once : Image → Preset → Z → Z → string + Image.
Variable idx_image : Image → string + Indices.
Variable render_3d_mosaic : Indices → gmap Z Image → Z * Z → string + Image.
Variable save_png : Image → string + bytes.

Abbreviation FS := (FS Image).
Abbreviation M := (M Image Indices).
Abbreviation event := (event Image Indices).
Abbreviation State := (State Image Indices).

Definition external {A} (r : string + A) : M A :=
  match r with
  | inr a => mret a
  | inl msg => raise (ExternalError msg)
  end.

(** [v.get(k, dflt)] *)
Definition py_get (v : pyvalue) (k : string) (dflt : pyvalue) : M pyvalue :=
  match v with
  | PyDict d => mret (default dflt (d !! k))
  | _ => raise (AttributeError "object has no attribute 'get'")
  end.

Definition get_float (preset_dict : pyvalue) (k : string) (dflt : float) : M float :=
  v ← py_get preset_dict k (PyFloat dflt); lift (py_float float_of_str v).

Definition get_int (preset_dict : pyvalue) (k : string) (dflt : Z) : M Z :=
  v ← py_get preset_dict k (PyInt dflt); lift (py_int int_of_str v).

(** Lines 62-80. *)
Definition load_preset_from_json (fs : FS) (path : Path) : M Preset :=
  found ← path_exists fs path;
  if negb found then
    raise (FileNotFoundError ("Preset JSON not found at: " +:+ path_str path))
  else
    log (EvJsonLoad path : event);;
    preset_dict ← lift (fs_json fs path);
    blur ← get_float preset_dict "blur" 0%float;
    unsharp_radius ← get_float preset_dict "unsharp_radius" 0%float;
    unsharp_percent ← get_int preset_dict "unsharp_percent" 0;
    contrast ← get_float preset_dict "contrast" 1%float;
    brightness ← get_float preset_dict "brightness" 1%float;
    gamma ← get_float preset_dict "gamma" 1%float;
    mret (mkPreset blur unsharp_radius unsharp_percent contrast brightness gamma).

(** Lines 155-161. *)
Definition startup_event (fs : FS) : M unit :=
  preset ← load_preset_from_json fs PRESET_PATH;
  set_global_preset (Some preset);;
  log (EvLoadTileImages : event);;
  tiles ← load_tile_images module_file fs "tiles";
  set_tile_cache (Some tiles).

(** Lines 169-172. *)
Definition health : M (list (string * string)) := mret [("status", "ok")].

Inductive Response := StreamingResponse (body : bytes) (media_type : string).

(** Lines 215-218. *)
Definition max_per_color_for (size : Z) : Z :=
  if decide (size = 96) then 2900 else MAX_PER_COLOR.

(** Lines 175-252. *)
Definition generate_lego_mosaic_3d (fs : FS) (file : UploadFile) (size : Z) : M Response :=
  preset ← get_global_preset;
  match preset with
  | None => raise (HTTPException 500 "Preset not loaded")
  | Some preset =>
      if negb (bool_decide (size = 64) || bool_decide (size = 96)) then
        raise (HTTPException 400 "size must be 64 or 96")
      else
        img ← try_except
                 (log (EvFileRead : event);;
                  raw_bytes ← external (upload_read file);
                  log (EvDecode raw_bytes : event);;
                  external (decode_rgb raw_bytes))
                 (λ e, raise (HTTPException 400 ("Failed to read image: " +:+ exn_str e)));
        let max_per_color := max_per_color_for size in
        mosaic_2d ← try_except
                       (log (EvApplyPresetOnce img preset size max_per_color : event);;
                        external (apply_preset_once img preset size max_per_color))
                       (λ e, raise (HTTPException 500
                                      ("Error generating 2D mosaic: " +:+ exn_str e)));
        indices ← try_except
                     (log (EvIdxImage mosaic_2d : event);;
                      external (idx_image mosaic_2d))
                     (λ e, raise (HTTPException 500
                                    ("Error computing palette indices: " +:+ exn_str e)));
        mosaic_3d ← try_except
                       (log (EvLoadTileImages : event);;
                        tile_images ← load_tile_images module_file fs "tiles";
                        log (EvRender indices tile_images (1920, 1080) : event);;
                        tiles ← deref tile_images;
                        external (render_3d_mosaic indices tiles (1920, 1080)))
                       (λ e, raise (HTTPException 500
                                      ("Error generating 3D mosaic: " +:+ exn_str e)));
        log (EvSavePng mosaic_3d : event);;
        buf ← external (save_png mosaic_3d);
        mret (StreamingResponse buf "image/png")
  end.

(** Lines 237-252 on their own: the render stage and the response, as run once
    the palette indices are known. *)
Definition render_and_stream (fs : FS) (indices : Indices) : M Response :=
  mosaic_3d ← try_except
                 (log (EvLoadTileImages : event);;
                  tile_images ← load_tile_images module_file fs "tiles";
                  log (EvRender indices tile_images (1920, 1080) : event);;
                  tiles ← deref tile_images;
                  external (render_3d_mosaic indices tiles (1920, 1080)))
                 (λ e, raise (HTTPException 500
                                ("Error generating 3D mosaic: " +:+ exn_str e)));
  log (EvSavePng mosaic_3d : event);;
  buf ← external (save_png mosaic_3d);
  mret (StreamingResponse buf "image/png").

End Pipeline.

(** ** A concrete deployment, used to run the model

    Images are named by the text that identifies them; the five tiles sit in
    [tiles/] next to a preset file that only sets [gamma]. *)

Module Demo.

Definition Image := string.
Definition Indices := list Z.

Definition module_file : string := "/srv/app/api_server.py".

Definition tile_files (dir : Path) : list Path :=
  (λ f, dir </> f) <$> dict_values TILE_MAP.

Definition fs_of (present : list Path) (unreadable : list Path) : FS Image :=
  {| fs_exists := λ p, bool_decide (p ∈ present);
     fs_open_rgb := λ p, if bool_decide (p ∈ unreadable)
                         then inl "cannot identify image file"
                         else inr (path_str p);
     fs_json := λ p, inr (PyDict {[ "gamma" := PyFloat 2%float ]}) |}.

(** All five tiles in [tiles/]. *)
Definition fs_complete : FS Image :=
  fs_of (PRESET_PATH :: P "tiles" :: tile_files (P "tiles")) [].

(** [tiles/] lacks the tile of palette index 3, which is nowhere else
    either. *)
Definition fs_one_missing : FS Image :=
  fs_of [ P "tiles";
          P "tiles" </> "RGB (220, 224, 225).png";
          P "tiles" </> "RGB (150, 160, 171).png";
          P "tiles" </> "RGB (88, 99, 110).png";
          P "tiles" </> "RGB (20, 25, 30).png" ] [].

(** The tile of palette index 2 is present but corrupt. *)
Definition fs_one_corrupt : FS Image :=
  fs_of (P "tiles" :: tile_files (P "tiles")) [P "tiles" </> "RGB (88, 99, 110).png"].

(** No tile anywhere. *)
Definition fs_empty : FS Image := fs_of [PRESET_PATH] [].

Definition float_of_str (s : string) : option float := None.
Definition int_of_str (s : string) : option Z := None.
Definition MAX_PER_COLOR : Z := 1900.

Definition decode_rgb (raw : bytes) : string + Image :=
  match raw with
  | [] => inl "cannot identify image file"
  | _ => inr "photo"
  end.
Definition apply_preset_once (img : Image) (p : Preset) (size max_per_color : Z)
  : string + Image := inr "mosaic_2d".
Definition idx_image (img : Image) : string + Indices := inr [0; 1; 2; 3; 4].
Definition render_3d_mosaic (ix : Indices) (tiles : gmap Z Image) (bound : Z * Z)
  : string + Image := inr "mosaic_3d".
Definition save_png (img : Image) : string + bytes := inr [].

Definition photo : UploadFile := mkUpload (inr [Byte.x89; Byte.x50; Byte.x4e; Byte.x47]).
Definition garbage : UploadFile := mkUpload (inr []).

Definition preset_default : Preset :=
  mkPreset 0%float 0%float 0 1%float 1%float 1%float.

Definition cold : State Image Indices := initial_state.

(** Preset loaded, tile cache still empty. *)
Definition preset_only : State Image Indices :=
  {| _tile_cache := None; _global_preset := Some preset_default; heap := []; trace := [] |}.

Abbreviation load :=
  (load_tile_images (Image := Image) (Indices := Indices) module_file).

Abbreviation startup :=
  (startup_event (Image := Image) (Indices := Indices) module_file float_of_str int_of_str).

Abbreviation handle :=
  (generate_lego_mosaic_3d (Image := Image) (Indices := Indices) module_file
     MAX_PER_COLOR decode_rgb apply_preset_once idx_image render_3d_mosaic save_png).

End Demo.

(** ** Vocabulary of the properties *)

Section Vocabulary.

Context {Image Indices : Type}.

Abbreviation FS := (FS Image).
Abbreviation event := (event Image Indices).
Abbreviation State := (State Image Indices).

(** The state [s] with [evs] appended to its trace. *)
Definition add_events (s : State) (evs : list event) : State :=
  {| _tile_cache := _tile_cache s; _global_preset := _global_preset s;
     heap := heap s; trace := trace s ++ evs |}.

(** What the requests share: the two caches and the objects they point to. *)
Definition shared (s : State) : option loc * option Preset * list (gmap Z Image) :=
  (_tile_cache s, _global_preset s, heap s).

(** The events [s'] has beyond those of [s]. *)
Definition new_events (s s' : State) : list event :=
  drop (length (trace s)) (trace s').

(** The probe file: the catalog's entry of index 0. *)
Definition probe_name : string := "RGB (220, 224, 225).png".

(** Directory [d] exists and holds the probe file. *)
Definition has_probe (fs : FS) (d : Path) : Prop :=
  fs_exists fs d = true ∧ fs_exists fs (d </> probe_name) = true.

Global Instance has_probe_dec fs d : Decision (has_probe fs d).
Proof. unfold has_probe. apply _. Defined.

(** The disk accesses of examining one candidate directory. *)
Definition examine (fs : FS) (d : Path) : list event :=
  if fs_exists fs d then [EvExists d; EvExists (d </> probe_name)] else [EvExists d].

(** Catalog file [f] is in the current directory. *)
Definition in_cwd (fs : FS) (f : string) : Prop := fs_exists fs (P f) = true.

Global Instance in_cwd_dec fs f : Decision (in_cwd fs f).
Proof. unfold in_cwd. apply _. Defined.

(** The candidates the probe loop gets to look at: up to and including the
    first one that holds the probe file. *)
Definition examined (fs : FS) (paths : list Path) : list Path :=
  match list_find (has_probe fs) paths with
  | Some (i, _) => take (S i) paths
  | None => paths
  end.

(** The catalog names the fallback gets to look at: up to and including the
    first one found in the current directory. *)
Definition looked_up (fs : FS) (names : list string) : list string :=
  match list_find (in_cwd fs) names with
  | Some (i, _) => take (S i) names
  | None => names
  end.

(** The directory the search settles on: the first candidate that holds the
    probe file; failing that, the current directory when it holds any catalog
    file. *)
Definition selected (module_file : string) (fs : FS) (tiles_dir : string) : option Path :=
  match list_find (has_probe fs) (search_paths module_file tiles_dir) with
  | Some (_, d) => Some d
  | None =>
      match list_find (in_cwd fs) (dict_values TILE_MAP) with
      | Some _ => Some (P ".")
      | None => None
      end
  end.

(** The disk accesses of the search, in order. *)
Definition selection_accesses (module_file : string) (fs : FS) (tiles_dir : string)
  : list event :=
  (examined fs (search_paths module_file tiles_dir) ≫= examine fs) ++
  match list_find (has_probe fs) (search_paths module_file tiles_dir) with
  | Some _ => []
  | None => (λ f, EvExists (P f)) <$> looked_up fs (dict_values TILE_MAP)
  end.

(** The disk accesses of loading every catalog entry from [d]. *)
Definition load_accesses (d : Path) (items : list (Z * string)) : list event :=
  items ≫= λ '(_, f), [EvExists (d </> f); EvImageOpen (d </> f)].

(** The tile [f] cannot be loaded from [d]: missing there, or unreadable. *)
Definition tile_missing (fs : FS) (d : Path) (f : string) : Prop :=
  fs_exists fs (d </> f) = false.

Definition tile_unreadable (fs : FS) (d : Path) (f : string) : Prop :=
  fs_exists fs (d </> f) = true ∧ ∃ msg, fs_open_rgb fs (d </> f) = inl msg.

Definition tile_fails (fs : FS) (d : Path) (f : string) : Prop :=
  tile_missing fs d f ∨ tile_unreadable fs d f.


(** The value of a preset field as the spec words it: the default when the key
    is absent, the coercion of the stored value when it is present. *)
Definition field_or_default {A} (coerce : pyvalue → exn + A) (d : gmap string pyvalue)
    (k : string) (dflt : A) : exn + A :=
  match d !! k with
  | None => inr dflt
  | Some v => coerce v
  end.

(** The events the render stage may log: disk accesses of the tile resolver,
    the resolver call, the render call and the PNG encoding. *)
Definition render_stage_event (e : event) : Prop :=
  is_disk_event e = true ∨ e = EvLoadTileImages ∨
  (∃ ix l b, e = EvRender ix l b) ∨ (∃ img, e = EvSavePng img).

(** The tile [f] loads from [d] as [img]. *)
Definition tile_ok (fs : FS) (d : Path) (f : string) (img : Image) : Prop :=
  fs_exists fs (d </> f) = true ∧ fs_open_rgb fs (d </> f) = inr img.

(** Every catalog entry loads from [d]. *)
Definition tiles_complete (fs : FS) (d : Path) : Prop :=
  ∀ idx f, (idx, f) ∈ TILE_MAP → ∃ img, tile_ok fs d f img.

(** The six coercions of the preset loader in the order the call evaluates
    them; the first one that raises decides the error. *)
Definition coerce_preset (float_of_str : string → option float)
    (int_of_str : string → option Z) (d : gmap string pyvalue) : exn + Preset :=
  match field_or_default (py_float float_of_str) d "blur" 0%float with
  | inl e => inl e
  | inr b =>
  match field_or_default (py_float float_of_str) d "unsharp_radius" 0%float with
  | inl e => inl e
  | inr ur =>
  match field_or_default (py_int int_of_str) d "unsharp_percent" 0 with
  | inl e => inl e
  | inr up =>
  match field_or_default (py_float float_of_str) d "contrast" 1%float with
  | inl e => inl e
  | inr c =>
  match field_or_default (py_float float_of_str) d "brightness" 1%float with
  | inl e => inl e
  | inr br =>
  match field_or_default (py_float float_of_str) d "gamma" 1%float with
  | inl e => inl e
  | inr g => inr (mkPreset b ur up c br g)
  end end end end end end.

End Vocabulary.

(** ** First checks: the model runs *)

Example path_examples :
  P "." = mkPath Relative [] ∧ P "tiles/" = P "tiles" ∧ P "./tiles" = P "tiles" ∧
  P "/mnt/data" = mkPath Slash ["mnt"; "data"] ∧
  path_str (P "/mnt/data") = "/mnt/data" ∧ path_str (P EmptyString) = "." ∧
  P "." </> "a.png" = P "a.png" ∧
  parent (P "/srv/app/api_server.py") </> "tiles" = P "/srv/app/tiles".
Proof. repeat split; reflexivity. Qed.

Example coercion_examples :
  float_of_int 2 = inr 2%float ∧ int_of_float 2.75%float = inr 2 ∧
  int_of_float (-2.75)%float = inr (-2) ∧ int_of_float 150%float = inr 150.
Proof. repeat split; vm_compute; reflexivity. Qed.

Example demo_load_complete :
  let r := Demo.load Demo.fs_complete "tiles" Demo.cold in
  r.1 = inr 0%nat ∧ _tile_cache r.2 = Some 0%nat ∧
  (∀ d, heap r.2 !! 0%nat = Some d → d !! 3 = Some "tiles/RGB (35, 46, 59).png").
Proof. vm_compute. repeat split. intros d [= <-]. reflexivity. Qed.

(** ** Strings *)

Lemma starts_with_spec (p s : string) :
  Str.starts_with p s = true ↔ ∃ post, s = p +:+ post.
Proof.
  revert s. induction p as [|a p IH]; intros s; simpl.
  - split; [intros _; by exists s | done].
  - destruct s as [|b s]; simpl.
    + split; [done | intros [post Hpost]; discriminate].
    + destruct (decide (a = b)) as [->|Hne].
      * rewrite IH. split; intros [post Hpost]; exists post.
        -- by rewrite Hpost.
        -- by injection Hpost.
      * split; [done | intros [post Hpost]; by injection Hpost].
Qed.

Lemma contains_mentions (name msg : string) :
  Str.contains name msg = true ↔ mentions msg name.
Proof.
  unfold mentions. induction msg as [|c rest IH].
  - simpl. rewrite orb_false_r, starts_with_spec. split.
    + intros [post Hpost]. by exists EmptyString, post.
    + intros [[|? ?] [post Hpost]]; [by exists post | discriminate].
  - cbn [Str.contains]. rewrite orb_true_iff, IH, starts_with_spec. split.
    + intros [[post Hpost] | (pre & post & Hpost)].
      * by exists EmptyString, post.
      * exists (String c pre), post. simpl. by rewrite Hpost.
    + intros [[|c' pre] [post Hpost]].
      * left. by exists post.
      * right. exists pre, post. by injection Hpost.
Qed.

Lemma mentions_middle (pre name post : string) : mentions (pre +:+ name +:+ post) name.
Proof. by exists pre, post. Qed.

Lemma append_empty_r (s : string) : s +:+ EmptyString = s.
Proof.
  induction s as [|c s IH]; [done|].
  change (String c (s +:+ EmptyString) = String c s). by rewrite IH.
Qed.

Lemma mentions_end (pre name : string) : mentions (pre +:+ name) name.
Proof. exists pre, EmptyString. by rewrite append_empty_r. Qed.

(** ** The resolver, step by step *)

Section ResolverFacts.

Context {Image Indices : Type}.
Variable module_file : string.
Variable fs : FS Image.

Abbreviation M := (M Image Indices).
Abbreviation event := (event Image Indices).
Abbreviation State := (State Image Indices).

Implicit Types (s : State) (d : Path) (f : string).

Lemma add_events_nil s : add_events s [] = s.
Proof. destruct s. unfold add_events. simpl. by rewrite app_nil_r. Qed.

Lemma add_events_app s (a b : list event) :
  add_events (add_events s a) b = add_events s (a ++ b).
Proof. unfold add_events. simpl. by rewrite app_assoc. Qed.

Lemma new_events_add s (evs : list event) : new_events s (add_events s evs) = evs.
Proof. unfold new_events, add_events. simpl. by rewrite drop_app_length. Qed.

Lemma bind_run {A B} (m : M A) (k : A → M B) s :
  (m ≫= k) s = match m s with
               | (inr a, s') => k a s'
               | (inl e, s') => (inl e, s')
               end.
Proof. done. Qed.

Lemma path_exists_run (p : Path) s :
  path_exists fs p s = (inr (fs_exists fs p), add_events s [EvExists p]).
Proof. done. Qed.

Lemma TILE_MAP_probe s :
  (TILE_MAP_getitem 0 : M string) s = (inr probe_name, s).
Proof. done. Qed.

Lemma probe_loop_run (paths : list Path) s :
  probe_loop fs paths s =
    (inr (snd <$> list_find (has_probe fs) paths),
     add_events s (examined fs paths ≫= examine fs)).
Proof.
  revert s. induction paths as [|d rest IH]; intros s.
  - simpl. by rewrite add_events_nil.
  - cbn [probe_loop]. rewrite bind_run, path_exists_run.
    unfold examined in *. cbn [list_find]. unfold examine at 1.
    destruct (fs_exists fs d) eqn:Hd.
    + rewrite bind_run, TILE_MAP_probe, bind_run, path_exists_run, add_events_app.
      destruct (fs_exists fs (d </> probe_name)) eqn:Hf.
      * rewrite decide_True by done. simpl. rewrite Hd. by rewrite app_nil_r.
      * rewrite decide_False by (intros [_ ?]; congruence).
        rewrite IH, add_events_app.
        destruct (list_find (has_probe fs) rest) as [[i x]|]; simpl; by rewrite Hd.
    + rewrite decide_False by (intros [? _]; congruence).
      rewrite IH, add_events_app.
      destruct (list_find (has_probe fs) rest) as [[i x]|]; simpl; by rewrite Hd.
Qed.

Lemma fallback_loop_run (names : list string) s :
  fallback_loop fs names s =
    (inr (match list_find (in_cwd fs) names with
          | Some _ => Some (P ".")
          | None => None
          end),
     add_events s ((λ f, EvExists (P f)) <$> looked_up fs names)).
Proof.
  revert s. induction names as [|f rest IH]; intros s.
  - simpl. by rewrite add_events_nil.
  - cbn [fallback_loop]. rewrite bind_run, path_exists_run.
    unfold looked_up in *. cbn [list_find].
    destruct (fs_exists fs (P f)) eqn:Hf.
    + by rewrite decide_True by done.
    + rewrite decide_False by (unfold in_cwd; congruence).
      rewrite IH, add_events_app.
      by destruct (list_find (in_cwd fs) rest) as [[i x]|].
Qed.

Lemma select_tiles_path_run (tiles_dir : string) s :
  select_tiles_path module_file fs tiles_dir s =
    (inr (selected module_file fs tiles_dir),
     add_events s (selection_accesses module_file fs tiles_dir)).
Proof.
  unfold select_tiles_path, selected, selection_accesses.
  rewrite bind_run, probe_loop_run.
  destruct (list_find (has_probe fs) (search_paths module_file tiles_dir))
    as [[i d]|] eqn:Hfind; cbn [fmap option_fmap option_map snd].
  - by rewrite app_nil_r.
  - by rewrite fallback_loop_run, add_events_app.
Qed.


Lemma selection_accesses_disk (tiles_dir : string) :
  Forall (λ e : event, is_disk_event e = true) (selection_accesses module_file fs tiles_dir).
Proof.
  unfold selection_accesses. apply Forall_app. split.
  - apply Forall_bind, Forall_forall. intros d _. unfold examine, compose.
    destruct (fs_exists fs d); by repeat constructor.
  - destruct (list_find _ _); [constructor|].
    apply Forall_fmap, Forall_forall. by intros f _.
Qed.

(** One round of the loading loop. *)
Lemma load_loop_cons d (l : loc) (idx : Z) f (rest : list (Z * string)) s :
  load_loop fs d l ((idx, f) :: rest) s =
    if fs_exists fs (d </> f) then
      match fs_open_rgb fs (d </> f) with
      | inr img =>
          load_loop fs d l rest
            (dict_setitem l idx img
               (add_events s [EvExists (d </> f); EvImageOpen (d </> f)])).2
      | inl msg =>
          (inl (IOError (tile_load_failed_message f (ExternalError msg))),
           add_events s [EvExists (d </> f); EvImageOpen (d </> f)])
      end
    else
      (inl (FileNotFoundError (tile_not_found_message f d)),
       add_events s [EvExists (d </> f)]).
Proof.
  cbn [load_loop]. rewrite bind_run, path_exists_run.
  destruct (fs_exists fs (d </> f)); [|done].
  cbn [negb]. rewrite bind_run. unfold try_except at 1.
  rewrite bind_run. unfold image_open_rgb at 1. rewrite bind_run.
  unfold log at 1. fold (add_events (add_events s [EvExists (d </> f)]) [EvImageOpen (d </> f)]).
  rewrite add_events_app. simpl app.
  destruct (fs_open_rgb fs (d </> f)) as [msg|img]; reflexivity.
Qed.

Lemma dict_setitem_frame (l : loc) (k : Z) (v : Image) s :
  let s' := (dict_setitem l k v s).2 in
  _tile_cache s' = _tile_cache s ∧ _global_preset s' = _global_preset s ∧
  trace s' = trace s ∧ length (heap s') = length (heap s) ∧
  ∀ l', l' ≠ l → heap s' !! l' = heap s !! l'.
Proof.
  simpl. repeat split; [by rewrite length_alter|].
  intros l' Hne. by rewrite list_lookup_alter_ne.
Qed.

(** The loading loop touches neither global, only reads the disk, for the
    entries in catalog order, and writes to no dict but its own. *)
Lemma load_loop_frame d (l : loc) (items : list (Z * string)) s :
  let s' := (load_loop fs d l items s).2 in
  _tile_cache s' = _tile_cache s ∧ _global_preset s' = _global_preset s ∧
  (∃ evs, trace s' = trace s ++ evs ∧ evs `prefix_of` load_accesses d items ∧
          Forall (λ e : event, is_disk_event e = true) evs) ∧
  length (heap s') = length (heap s) ∧
  ∀ l', l' ≠ l → heap s' !! l' = heap s !! l'.
Proof.
  revert s. induction items as [|[idx f] rest IH]; intros s.
  - simpl. repeat split; try done. exists []. by rewrite app_nil_r.
  - rewrite load_loop_cons.
    change (load_accesses d ((idx, f) :: rest) : list event)
      with ([EvExists (d </> f); EvImageOpen (d </> f)] ++ load_accesses d rest : list event).
    destruct (fs_exists fs (d </> f)) eqn:Hex.
    + destruct (fs_open_rgb fs (d </> f)) as [msg|img] eqn:Hopen.
      * simpl. repeat split; try done.
        exists [EvExists (d </> f); EvImageOpen (d </> f)]. repeat split.
        -- by exists (load_accesses d rest).
        -- by repeat constructor.
      * set (s1 := (dict_setitem l idx img _).2).
        destruct (IH s1) as (Hc & Hp & (evs & Ht & Hpre & Hdisk) & Hlen & Hheap).
        destruct (dict_setitem_frame l idx img
                    (add_events s [EvExists (d </> f); EvImageOpen (d </> f)]))
          as (Hc1 & Hp1 & Ht1 & Hlen1 & Hheap1).
        fold s1 in Hc1, Hp1, Ht1, Hlen1, Hheap1.
        repeat split.
        -- by rewrite Hc, Hc1.
        -- by rewrite Hp, Hp1.
        -- exists ([EvExists (d </> f); EvImageOpen (d </> f)] ++ evs). repeat split.
           ++ rewrite Ht, Ht1. simpl. by rewrite <- app_assoc.
           ++ by apply prefix_app.
           ++ by repeat constructor.
        -- by rewrite Hlen, Hlen1.
        -- intros l' Hne. by rewrite Hheap, Hheap1.
    + simpl. repeat split; try done.
      exists [EvExists (d </> f)]. repeat split.
      * by exists (EvImageOpen (d </> f) :: load_accesses d rest).
      * by repeat constructor.
Qed.

Lemma new_events_trace s s' (evs : list event) :
  trace s' = trace s ++ evs → new_events s s' = evs.
Proof. unfold new_events. intros ->. by rewrite drop_app_length. Qed.

(** When some entry cannot be loaded from [d], the loop raises at the first
    such entry, with the error of that entry. *)
Lemma load_loop_fails d (l : loc) (items : list (Z * string)) s :
  (∃ x, x ∈ items ∧ tile_fails fs d x.2) →
  ∃ pre idx f post e,
    items = pre ++ (idx, f) :: post ∧
    Forall (λ x, ¬ tile_fails fs d x.2) pre ∧
    tile_fails fs d f ∧
    (load_loop fs d l items s).1 = inl e ∧
    (tile_missing fs d f → e = FileNotFoundError (tile_not_found_message f d)) ∧
    (∀ msg, fs_exists fs (d </> f) = true → fs_open_rgb fs (d </> f) = inl msg →
            e = IOError (tile_load_failed_message f (ExternalError msg))).
Proof.
  revert s. induction items as [|[idx f] rest IH]; intros s [x [Hx Hfail]].
  - by apply elem_of_nil in Hx.
  - rewrite load_loop_cons.
    destruct (fs_exists fs (d </> f)) eqn:Hex.
    + destruct (fs_open_rgb fs (d </> f)) as [msg|img] eqn:Hopen.
      * exists [], idx, f, rest, (IOError (tile_load_failed_message f (ExternalError msg))).
        repeat split; try done.
        -- right. split; [done | by exists msg].
        -- unfold tile_missing. congruence.
        -- intros msg' _ Heq. congruence.
      * assert (Hok : ¬ tile_fails fs d f).
        { intros [Hm | [_ [msg Hmsg]]]; [unfold tile_missing in Hm|]; congruence. }
        apply elem_of_cons in Hx as [-> | Hx]; [done|].
        edestruct IH as (pre & idx' & f' & post & e & -> & Hpre & Hf' & Hrun & Hmiss & Hio);
          [by exists x|].
        exists ((idx, f) :: pre), idx', f', post, e.
        repeat split; try done. by constructor.
    + exists [], idx, f, rest, (FileNotFoundError (tile_not_found_message f d)).
      repeat split; try done.
      * by left.
      * intros msg. congruence.
Qed.

Lemma load_tile_images_cached (tiles_dir : string) (l : loc) s :
  _tile_cache s = Some l →
  load_tile_images module_file fs tiles_dir s = (inr l, s).
Proof.
  intros Hc. unfold load_tile_images. rewrite bind_run.
  unfold get_tile_cache. by rewrite Hc.
Qed.

Lemma load_tile_images_uncached (tiles_dir : string) s :
  _tile_cache s = None →
  load_tile_images module_file fs tiles_dir s =
    let s0 := add_events s (selection_accesses module_file fs tiles_dir) in
    match selected module_file fs tiles_dir with
    | None => (inl (FileNotFoundError missing_assets_message), s0)
    | Some d =>
        let l := length (heap s) in
        match load_loop fs d l TILE_MAP (new_dict s0).2 with
        | (inr _, s2) => (inr l, (set_tile_cache (Some l) s2).2)
        | (inl e, s2) => (inl e, s2)
        end
    end.
Proof.
  intros Hc. unfold load_tile_images. rewrite bind_run.
  unfold get_tile_cache. rewrite Hc.
  rewrite bind_run, select_tiles_path_run.
  destruct (selected module_file fs tiles_dir) as [d|]; [|done].
  rewrite bind_run. unfold new_dict at 1. cbn [heap add_events].
  rewrite bind_run.
  destruct (load_loop _ _ _ _ _) as [[e|[]] s2]; done.
Qed.


(** Whatever the state, the resolver leaves the preset alone and logs disk
    accesses only. *)
Lemma load_tile_images_frame (tiles_dir : string) s :
  let r := load_tile_images module_file fs tiles_dir s in
  _global_preset r.2 = _global_preset s ∧
  ∃ evs, trace r.2 = trace s ++ evs ∧ Forall (λ e : event, is_disk_event e = true) evs.
Proof.
  destruct (_tile_cache s) as [l|] eqn:Hc.
  - rewrite (load_tile_images_cached tiles_dir l s Hc). simpl. split; [done|].
    exists []. by rewrite app_nil_r.
  - rewrite load_tile_images_uncached by done. cbv zeta.
    pose proof (selection_accesses_disk tiles_dir) as Hsel.
    destruct (selected module_file fs tiles_dir) as [d|].
    + set (s1 := (new_dict _).2).
      destruct (load_loop_frame d (length (heap s)) TILE_MAP s1)
        as (_ & Hp & (evs & Ht & _ & Hdisk) & _).
      destruct (load_loop fs d (length (heap s)) TILE_MAP s1) as [[e|[]] s2];
        simpl in *; (split; [done|]);
        exists (selection_accesses module_file fs tiles_dir ++ evs);
        (split; [by rewrite Ht, app_assoc | by apply Forall_app]).
    + simpl. split; [done|]. by eexists.
Qed.

End ResolverFacts.

(** ** Properties of the tile cache *)

Section TileCache.

Context {Image Indices : Type}.
Variable module_file : string.

Abbreviation FS := (FS Image).
Abbreviation event := (event Image Indices).
Abbreviation State := (State Image Indices).

Implicit Types (fs : FS) (s : State) (d : Path) (f : string).

Lemma mentions_tile_not_found f d : mentions (tile_not_found_message f d) f.
Proof. apply mentions_middle. Qed.

Lemma mentions_tile_load_failed f (e : exn) : mentions (tile_load_failed_message f e) f.
Proof. apply mentions_middle. Qed.


(** An uncached load that has settled on [d] raises at the first catalog entry
    that cannot be loaded from [d], and leaves the cache empty. *)
Lemma load_fails_in fs (tiles_dir : string) s d :
  _tile_cache s = None →
  selected module_file fs tiles_dir = Some d →
  (∃ x, x ∈ TILE_MAP ∧ tile_fails fs d x.2) →
  let r := load_tile_images (Indices := Indices) module_file fs tiles_dir s in
  ∃ pre idx f post e,
    TILE_MAP = pre ++ (idx, f) :: post ∧
    Forall (λ x, ¬ tile_fails fs d x.2) pre ∧
    tile_fails fs d f ∧
    r.1 = inl e ∧ _tile_cache r.2 = None ∧
    (tile_missing fs d f → e = FileNotFoundError (tile_not_found_message f d)) ∧
    (∀ msg, fs_exists fs (d </> f) = true → fs_open_rgb fs (d </> f) = inl msg →
            e = IOError (tile_load_failed_message f (ExternalError msg))).
Proof.
  intros Hc Hsel Hbad. rewrite load_tile_images_uncached by done.
  rewrite Hsel. cbv zeta.
  set (s1 := (new_dict _).2).
  destruct (load_loop_fails fs d (length (heap s)) TILE_MAP s1 Hbad)
    as (pre & idx & f & post & e & Hsplit & Hpre & Hf & Hrun & Hmiss & Hio).
  destruct (load_loop_frame fs d (length (heap s)) TILE_MAP s1) as (Hcache & _).
  exists pre, idx, f, post, e.
  destruct (load_loop fs d (length (heap s)) TILE_MAP s1) as [[e'|[]] s2];
    simpl in Hrun; [|done].
  injection Hrun as ->. repeat split; try done.
  simpl in *. by rewrite Hcache.
Qed.

(** C6: when, on an uncached call, a directory has been selected and some
    catalog tile cannot be loaded from it (missing there, or unreadable), the
    call raises an error that names the first such file (FileNotFoundError when
    it is missing, IOError when it is unreadable) and [_tile_cache] is still
    None afterwards. *)
Theorem load_failure_names_file_and_publishes_nothing fs (tiles_dir : string) s d :
  _tile_cache s = None →
  (select_tiles_path (Indices := Indices) module_file fs tiles_dir s).1 = inr (Some d) →
  (∃ idx f, (idx, f) ∈ TILE_MAP ∧ tile_fails fs d f) →
  let r := load_tile_images (Indices := Indices) module_file fs tiles_dir s in
  ∃ pre idx f post e,
    TILE_MAP = pre ++ (idx, f) :: post ∧
    Forall (λ x, ¬ tile_fails fs d x.2) pre ∧
    tile_fails fs d f ∧
    r.1 = inl e ∧
    mentions (exn_str e) f ∧
    (tile_missing fs d f → ∃ msg, e = FileNotFoundError msg) ∧
    (tile_unreadable fs d f → ∃ msg, e = IOError msg) ∧
    _tile_cache r.2 = None.
Proof.
  intros Hc Hsel (idx0 & f0 & Hin & Hbad). rewrite select_tiles_path_run in Hsel.
  simpl in Hsel. injection Hsel as Hsel.
  destruct (load_fails_in fs tiles_dir s d Hc Hsel)
    as (pre & idx & f & post & e & Hsplit & Hpre & Hf & Hrun & Hcache & Hmiss & Hio).
  { by exists (idx0, f0). }
  exists pre, idx, f, post, e. repeat split; try done.
  - destruct Hf as [Hm | [Hex [msg Hmsg]]].
    + rewrite (Hmiss Hm). apply mentions_tile_not_found.
    + rewrite (Hio msg Hex Hmsg). apply mentions_tile_load_failed.
  - intros Hm. eexists. by apply Hmiss.
  - intros [Hex [msg Hmsg]]. eexists. by apply Hio.
Qed.

(** C7: once a call of [load_tile_images] has returned a mapping, every later
    call, whatever its argument and whatever is on disk by then, returns that
    same object and leaves the state, trace of disk accesses included, exactly
    as it was. *)
Theorem load_tile_images_memoized fs (tiles_dir : string) s (l : loc) s' :
  load_tile_images (Indices := Indices) module_file fs tiles_dir s = (inr l, s') →
  ∀ fs' (tiles_dir' : string),
    load_tile_images module_file fs' tiles_dir' s' = (inr l, s') ∧
    _tile_cache s' = Some l ∧
    new_events s' (load_tile_images module_file fs' tiles_dir' s').2 = [].
Proof.
  intros Hrun fs' tiles_dir'.
  assert (Hc : _tile_cache s' = Some l).
  { destruct (_tile_cache s) as [l0|] eqn:Hs.
    - rewrite (load_tile_images_cached module_file fs tiles_dir l0 s Hs) in Hrun.
      by injection Hrun as <- <-.
    - rewrite load_tile_images_uncached in Hrun by done. cbv zeta in Hrun.
      destruct (selected module_file fs tiles_dir) as [d|]; [|done].
      destruct (load_loop _ _ _ _ _) as [[e|[]] s2]; [done|].
      by injection Hrun as <- <-. }
  rewrite (load_tile_images_cached module_file fs' tiles_dir' l s' Hc).
  repeat split; [done|]. unfold new_events. simpl. by rewrite drop_all.
Qed.




(** X17: the fallback cannot lead to a loaded cache: when no candidate holds the
    probe file and the current directory exists, the probe file is not in the
    current directory either, so a load from there stops at entry 0. *)
Remark fallback_selection_never_loads fs (tiles_dir : string) s :
  _tile_cache s = None →
  fs_exists fs (P ".") = true →
  list_find (has_probe fs) (search_paths module_file tiles_dir) = None →
  ∃ msg, (load_tile_images (Indices := Indices) module_file fs tiles_dir s).1 =
           inl (FileNotFoundError msg).
Proof.
  intros Hc Hcwd Hfind. rewrite load_tile_images_uncached by done. cbv zeta.
  unfold selected. rewrite Hfind.
  destruct (list_find (in_cwd fs) (dict_values TILE_MAP)) as [[j f]|]; [|by eexists].
  apply list_find_None in Hfind. rewrite Forall_forall in Hfind.
  assert (Hprobe : fs_exists fs (P "." </> probe_name) = false).
  { destruct (fs_exists fs (P "." </> probe_name)) eqn:Hp; [|done].
    destruct (Hfind (P ".")); [unfold search_paths; set_solver | done]. }
  change TILE_MAP with ((0, probe_name) :: tail TILE_MAP).
  rewrite load_loop_cons, Hprobe. by eexists.
Qed.


End TileCache.

(** ** The request pipeline, step by step *)

Section PipelineFacts.

Context {Image Indices : Type}.
Variable module_file : string.
Variable float_of_str : string → option float.
Variable int_of_str : string → option Z.
Variable MAX_PER_COLOR : Z.
Variable decode_rgb : bytes → string + Image.
Variable apply_preset_once : Image → Preset → Z → Z → string + Image.
Variable idx_image : Image → string + Indices.
Variable render_3d_mosaic : Indices → gmap Z Image → Z * Z → string + Image.
Variable save_png : Image → string + bytes.

Abbreviation FS := (FS Image).
Abbreviation M := (M Image Indices).
Abbreviation event := (event Image Indices).
Abbreviation State := (State Image Indices).

Abbreviation handler :=
  (generate_lego_mosaic_3d module_file MAX_PER_COLOR decode_rgb apply_preset_once
     idx_image render_3d_mosaic save_png).
Abbreviation render_stage :=
  (render_and_stream (Image := Image) module_file render_3d_mosaic save_png).

Implicit Types (fs : FS) (s : State) (file : UploadFile) (size : Z).

Lemma log_run (e : event) s : log e s = (inr tt, add_events s [e]).
Proof. done. Qed.

Lemma external_run {A} (r : string + A) s :
  (external r : M A) s =
    match r with
    | inr a => (inr a, s)
    | inl msg => (inl (ExternalError msg), s)
    end.
Proof. by destruct r. Qed.

Lemma try_except_run {A} (m : M A) (h : exn → M A) s :
  try_except m h s = match m s with
                     | (inr a, s') => (inr a, s')
                     | (inl e, s') => h e s'
                     end.
Proof. done. Qed.

(** The handler up to the palette indices, outcome by outcome. *)
Lemma handler_run fs file size s :
  handler fs file size s =
    match _global_preset s with
    | None => (inl (HTTPException 500 "Preset not loaded"), s)
    | Some preset =>
        if negb (bool_decide (size = 64) || bool_decide (size = 96)) then
          (inl (HTTPException 400 "size must be 64 or 96"), s)
        else
          match upload_read file with
          | inl msg =>
              (inl (HTTPException 400 ("Failed to read image: " +:+ msg)),
               add_events s [EvFileRead])
          | inr raw =>
              match decode_rgb raw with
              | inl msg =>
                  (inl (HTTPException 400 ("Failed to read image: " +:+ msg)),
                   add_events s [EvFileRead; EvDecode raw])
              | inr img =>
                  let call := EvApplyPresetOnce img preset size
                                (max_per_color_for MAX_PER_COLOR size) in
                  match apply_preset_once img preset size
                          (max_per_color_for MAX_PER_COLOR size) with
                  | inl msg =>
                      (inl (HTTPException 500 ("Error generating 2D mosaic: " +:+ msg)),
                       add_events s [EvFileRead; EvDecode raw; call])
                  | inr mosaic_2d =>
                      match idx_image mosaic_2d with
                      | inl msg =>
                          (inl (HTTPException 500
                                  ("Error computing palette indices: " +:+ msg)),
                           add_events s [EvFileRead; EvDecode raw; call;
                                         EvIdxImage mosaic_2d])
                      | inr indices =>
                          render_stage fs indices
                            (add_events s [EvFileRead; EvDecode raw; call;
                                           EvIdxImage mosaic_2d])
                      end
                  end
              end
          end
    end.
Proof.
  unfold generate_lego_mosaic_3d. rewrite bind_run. cbn [get_global_preset].
  destruct (_global_preset s) as [preset|]; [|done].
  destruct (negb _); [done|].
  rewrite bind_run, try_except_run, bind_run, log_run, bind_run, external_run.
  destruct (upload_read file) as [msg|raw]; [done|].
  rewrite bind_run, log_run, add_events_app, external_run. cbn [app].
  destruct (decode_rgb raw) as [msg|img]; [done|].
  rewrite bind_run, try_except_run, bind_run, log_run, add_events_app, external_run.
  cbn [app].
  destruct (apply_preset_once _ _ _ _) as [msg|mosaic_2d]; [done|].
  rewrite bind_run, try_except_run, bind_run, log_run, add_events_app, external_run.
  cbn [app].
  destruct (idx_image mosaic_2d) as [msg|indices]; done.
Qed.

(** The render stage, outcome by outcome. *)
Lemma render_stage_run fs (indices : Indices) s :
  render_stage fs indices s =
    match load_tile_images module_file fs "tiles" (add_events s [EvLoadTileImages]) with
    | (inl e, s2) =>
        (inl (HTTPException 500 ("Error generating 3D mosaic: " +:+ exn_str e)), s2)
    | (inr l, s2) =>
        let s3 := add_events s2 [EvRender indices l (1920, 1080)] in
        match heap s2 !! l with
        | None =>
            (inl (HTTPException 500
                    ("Error generating 3D mosaic: " +:+ "dangling reference")), s3)
        | Some tiles =>
            match render_3d_mosaic indices tiles (1920, 1080) with
            | inl msg =>
                (inl (HTTPException 500 ("Error generating 3D mosaic: " +:+ msg)), s3)
            | inr mosaic_3d =>
                let s4 := add_events s3 [EvSavePng mosaic_3d] in
                match save_png mosaic_3d with
                | inl msg => (inl (ExternalError msg), s4)
                | inr buf => (inr (StreamingResponse buf "image/png"), s4)
                end
            end
        end
    end.
Proof.
  unfold render_and_stream.
  rewrite bind_run, try_except_run, bind_run, log_run, bind_run.
  destruct (load_tile_images _ _ _ _) as [[e|l] s2]; [done|].
  rewrite bind_run, log_run, bind_run. unfold deref at 1. cbn [heap add_events].
  destruct (heap s2 !! l) as [tiles|]; [|done].
  rewrite external_run.
  destruct (render_3d_mosaic _ _ _) as [msg|mosaic_3d]; [done|].
  rewrite bind_run, log_run, bind_run, external_run.
  by destruct (save_png mosaic_3d).
Qed.

Lemma render_stage_frame fs (indices : Indices) s :
  let r := render_stage fs indices s in
  _global_preset r.2 = _global_preset s ∧
  (∃ evs, trace r.2 = trace s ++ evs ∧ Forall render_stage_event evs) ∧
  (is_Some (_tile_cache s) → shared r.2 = shared s).
Proof.
  rewrite render_stage_run.
  set (s1 := add_events s [EvLoadTileImages]).
  destruct (load_tile_images_frame module_file fs "tiles" s1) as (Hp & evs & Ht & Hdisk).
  assert (Hcached : ∀ l, _tile_cache s = Some l →
            load_tile_images module_file fs "tiles" s1 = (inr l, s1)).
  { intros l Hl. by apply load_tile_images_cached. }
  assert (Hevs : Forall render_stage_event (EvLoadTileImages :: evs : list event)).
  { constructor; [right; by left|].
    eapply Forall_impl; [exact Hdisk|]. intros e He. by left. }
  assert (Hrender : ∀ l, render_stage_event (EvRender indices l (1920, 1080) : event)).
  { intros l. right. right. left. by eexists _, _, _. }
  assert (Hsave : ∀ img, render_stage_event (EvSavePng img : event)).
  { intros img. right. right. right. by eexists. }
  destruct (load_tile_images module_file fs "tiles" s1) as [[e|l] s2] eqn:Hload;
    cbn [fst snd] in Hp, Ht.
  - cbn [snd]. split; [done|]. split.
    + exists (EvLoadTileImages :: evs). split; [|done].
      rewrite Ht. subst s1. simpl. by rewrite <- app_assoc.
    + intros [l Hl]. by specialize (Hcached l Hl).
  - assert (Hshared : is_Some (_tile_cache s) → shared s2 = shared s).
    { intros [l' Hl']. specialize (Hcached l' Hl'). by injection Hcached as -> ->. }
    assert (Htr : trace s2 = trace s ++ EvLoadTileImages :: evs).
    { rewrite Ht. subst s1. simpl. by rewrite <- app_assoc. }
    cbv zeta.
    destruct (heap s2 !! l) as [tiles|];
      [destruct (render_3d_mosaic _ _ _) as [msg|mosaic_3d];
        [|destruct (save_png mosaic_3d)]|];
      cbn [snd add_events _global_preset trace]; (split; [done|]); (split; [|done]).
    + exists ((EvLoadTileImages :: evs) ++ [EvRender indices l (1920, 1080)]).
      split; [by rewrite Htr, app_assoc|]. apply Forall_app. split; [done|].
      repeat (apply List.Forall_cons; [by auto|]); apply List.Forall_nil.
    + exists ((EvLoadTileImages :: evs) ++
              [EvRender indices l (1920, 1080); EvSavePng mosaic_3d]).
      split; [rewrite Htr; by rewrite <- !app_assoc|]. apply Forall_app. split; [done|].
      repeat (apply List.Forall_cons; [by auto|]); apply List.Forall_nil.
    + exists ((EvLoadTileImages :: evs) ++
              [EvRender indices l (1920, 1080); EvSavePng mosaic_3d]).
      split; [rewrite Htr; by rewrite <- !app_assoc|]. apply Forall_app. split; [done|].
      repeat (apply List.Forall_cons; [by auto|]); apply List.Forall_nil.
    + exists ((EvLoadTileImages :: evs) ++ [EvRender indices l (1920, 1080)]).
      split; [by rewrite Htr, app_assoc|]. apply Forall_app. split; [done|].
      repeat (apply List.Forall_cons; [by auto|]); apply List.Forall_nil.
Qed.


(** The handler never writes the preset, and writes nothing shared at all when
    the tile cache is already populated or the preset is missing. *)
Lemma handler_frame fs file size s :
  let r := handler fs file size s in
  _global_preset r.2 = _global_preset s ∧
  (is_Some (_tile_cache s) ∨ _global_preset s = None → shared r.2 = shared s).
Proof.
  rewrite handler_run.
  destruct (_global_preset s) as [preset|] eqn:Hpreset; [|done].
  destruct (negb _); [done|].
  destruct (upload_read file) as [msg|raw]; [done|].
  destruct (decode_rgb raw) as [msg|img]; [done|].
  cbv zeta.
  destruct (apply_preset_once _ _ _ _) as [msg|mosaic_2d]; [done|].
  destruct (idx_image mosaic_2d) as [msg|indices]; [done|].
  match goal with |- context [render_and_stream _ _ _ _ _ ?s0] =>
    destruct (render_stage_frame fs indices s0) as (Hp & _ & Hshared) end.
  split.
  - by rewrite Hp.
  - intros [Hc | ?]; [|done]. by rewrite Hshared.
Qed.

End PipelineFacts.

(** ** Properties of the request pipeline *)

Section PipelineProperties.

Context {Image Indices : Type}.
Variable module_file : string.
Variable float_of_str : string → option float.
Variable int_of_str : string → option Z.
Variable MAX_PER_COLOR : Z.
Variable decode_rgb : bytes → string + Image.
Variable apply_preset_once : Image → Preset → Z → Z → string + Image.
Variable idx_image : Image → string + Indices.
Variable render_3d_mosaic : Indices → gmap Z Image → Z * Z → string + Image.
Variable save_png : Image → string + bytes.

Abbreviation FS := (FS Image).
Abbreviation M := (M Image Indices).
Abbreviation event := (event Image Indices).
Abbreviation State := (State Image Indices).

Abbreviation startup := (startup_event (Indices := Indices) module_file float_of_str int_of_str).

Implicit Types (fs : FS) (s : State) (file : UploadFile) (size : Z).

(** C10: while the preset is not loaded, every request, whatever its size and
    its file, is answered by the 500 error [Preset not loaded], with nothing
    read, decoded or processed. *)
Theorem preset_check_comes_first fs file size s :
  _global_preset s = None →
  generate_lego_mosaic_3d module_file MAX_PER_COLOR decode_rgb apply_preset_once
    idx_image render_3d_mosaic save_png fs file size s =
  (inl (HTTPException 500 "Preset not loaded"), s).
Proof. intros Hp. rewrite handler_run. by rewrite Hp. Qed.

(** C4, as the code has it: a request whose size is neither 64 nor 96 is
    rejected before the file is read or decoded and before any stage runs (the
    state, trace included, is untouched); the error is the 400
    [size must be 64 or 96] when the preset is loaded, and the 500
    [Preset not loaded] when it is not. *)
Theorem invalid_size_rejected_early fs file size s :
  size ≠ 64 → size ≠ 96 →
  let r := generate_lego_mosaic_3d module_file MAX_PER_COLOR decode_rgb apply_preset_once
             idx_image render_3d_mosaic save_png fs file size s in
  r.2 = s ∧
  (is_Some (_global_preset s) → r.1 = inl (HTTPException 400 "size must be 64 or 96")) ∧
  (_global_preset s = None → r.1 = inl (HTTPException 500 "Preset not loaded")).
Proof.
  intros H64 H96. rewrite handler_run.
  rewrite !bool_decide_eq_false_2 by done. cbn [orb negb].
  destruct (_global_preset s) as [preset|]; repeat split; try done.
Qed.

(** C9, as the code has it: when the preset is loaded and the size is 64 or 96,
    an upload whose bytes do not decode is answered by a 400 error whose detail
    carries the text of the decode failure, after the read and the decode
    attempt only. Whatever the preset and the size, such a request never calls
    the tile resolver nor any processing stage, and leaves the caches alone. *)
Theorem undecodable_upload_rejected fs file size s (raw : bytes) (msg : string) :
  upload_read file = inr raw →
  decode_rgb raw = inl msg →
  let r := generate_lego_mosaic_3d module_file MAX_PER_COLOR decode_rgb apply_preset_once
             idx_image render_3d_mosaic save_png fs file size s in
  (is_Some (_global_preset s) → size = 64 ∨ size = 96 →
   r.1 = inl (HTTPException 400 ("Failed to read image: " +:+ msg)) ∧
   mentions ("Failed to read image: " +:+ msg) msg ∧
   new_events s r.2 = [EvFileRead; EvDecode raw]) ∧
  (∃ e, r.1 = inl e) ∧
  Forall (λ e : event, e ≠ EvLoadTileImages ∧ is_stage_event e = false) (new_events s r.2) ∧
  shared r.2 = shared s.
Proof.
  intros Hread Hdec. rewrite handler_run, Hread, Hdec.
  assert (Hnone : new_events s s = []).
  { unfold new_events. by rewrite drop_all. }
  destruct (_global_preset s) as [preset|]; cbv zeta.
  - destruct (negb _) eqn:Hsize; cbn [fst snd].
    + rewrite Hnone. split; [|split; [by eexists | by split]].
      intros _ Hvalid. exfalso. destruct Hvalid as [-> | ->]; discriminate Hsize.
    + rewrite new_events_add. split; [|split; [by eexists | split; [|done]]].
      * intros _ _. split; [done|]. split; [|done].
        apply mentions_end.
      * repeat (apply List.Forall_cons; [by split|]). apply List.Forall_nil.
  - cbn [fst snd]. rewrite Hnone. split; [|split; [by eexists | by split]].
    by intros [? ?].
Qed.




(** A startup hook that returns has populated both caches. *)
Lemma startup_populates fs s s' :
  startup fs s = (inr tt, s') →
  is_Some (_tile_cache s') ∧ is_Some (_global_preset s').
Proof.
  unfold startup_event. rewrite bind_run.
  destruct (load_preset_from_json _ _ _ _ _) as [[e|p] s1]; [discriminate|].
  rewrite bind_run. cbn [set_global_preset]. rewrite bind_run, log_run, bind_run.
  match goal with |- context [load_tile_images _ _ _ ?s0] =>
    destruct (load_tile_images_frame module_file fs "tiles" s0) as (Hp & _);
    destruct (load_tile_images module_file fs "tiles" s0) as [[e|l] s2] end;
    [discriminate|].
  cbn [set_tile_cache]. intros [= <-]. cbn in *. rewrite Hp. by split; eexists.
Qed.

(** C2, as the code has it: no request ever changes the preset; a request that
    finds the tile cache populated, or the preset missing, leaves the shared
    state as it was; in particular every request served after a startup hook
    that returned. (A request that finds the preset loaded and the tile cache
    empty goes through the lazy path of [load_tile_images].) *)
Theorem requests_leave_caches fs file size s :
  let r := generate_lego_mosaic_3d module_file MAX_PER_COLOR decode_rgb apply_preset_once
             idx_image render_3d_mosaic save_png fs file size s in
  _global_preset r.2 = _global_preset s ∧
  (is_Some (_tile_cache s) ∨ _global_preset s = None → shared r.2 = shared s) ∧
  (∀ fs0 s0, startup fs0 s0 = (inr tt, s) → shared r.2 = shared s).
Proof.
  destruct (handler_frame module_file MAX_PER_COLOR decode_rgb apply_preset_once
              idx_image render_3d_mosaic save_png fs file size s) as [Hp Hshared].
  split; [done|]. split; [done|].
  intros fs0 s0 [Hc _]%startup_populates. apply Hshared. by left.
Qed.

Lemma get_float_run (d : gmap string pyvalue) (k : string) (dflt : float) s :
  get_float float_of_str (PyDict d) k dflt s =
    (field_or_default (py_float float_of_str) d k dflt, s).
Proof.
  unfold get_float, field_or_default. rewrite bind_run. cbn [py_get].
  by destruct (d !! k).
Qed.

Lemma get_int_run (d : gmap string pyvalue) (k : string) (dflt : Z) s :
  get_int int_of_str (PyDict d) k dflt s =
    (field_or_default (py_int int_of_str) d k dflt, s).
Proof.
  unfold get_int, field_or_default. rewrite bind_run. cbn [py_get].
  by destruct (d !! k).
Qed.

(** C8: when the preset file parses to a mapping, each field of the loaded
    Preset is the documented default (blur 0.0, unsharp_radius 0.0,
    unsharp_percent 0, contrast 1.0, brightness 1.0, gamma 1.0) when its key is
    absent and the [float()] or [int()] coercion of the stored value when it is
    present; a mapping holding only a float [gamma] gives that gamma and the
    five defaults. *)
Theorem preset_defaults fs (path : Path) (d : gmap string pyvalue) s :
  fs_exists fs path = true →
  fs_json fs path = inr (PyDict d) →
  (∀ b ur up c br g,
     field_or_default (py_float float_of_str) d "blur" 0%float = inr b →
     field_or_default (py_float float_of_str) d "unsharp_radius" 0%float = inr ur →
     field_or_default (py_int int_of_str) d "unsharp_percent" 0 = inr up →
     field_or_default (py_float float_of_str) d "contrast" 1%float = inr c →
     field_or_default (py_float float_of_str) d "brightness" 1%float = inr br →
     field_or_default (py_float float_of_str) d "gamma" 1%float = inr g →
     (load_preset_from_json (Indices := Indices) float_of_str int_of_str fs path s).1 =
       inr (mkPreset b ur up c br g)) ∧
  (∀ g, d = {[ "gamma" := PyFloat g ]} →
     (load_preset_from_json (Indices := Indices) float_of_str int_of_str fs path s).1 =
       inr (mkPreset 0%float 0%float 0 1%float 1%float g)).
Proof.
  intros Hex Hjson.
  assert (Hgen : ∀ b ur up c br g,
     field_or_default (py_float float_of_str) d "blur" 0%float = inr b →
     field_or_default (py_float float_of_str) d "unsharp_radius" 0%float = inr ur →
     field_or_default (py_int int_of_str) d "unsharp_percent" 0 = inr up →
     field_or_default (py_float float_of_str) d "contrast" 1%float = inr c →
     field_or_default (py_float float_of_str) d "brightness" 1%float = inr br →
     field_or_default (py_float float_of_str) d "gamma" 1%float = inr g →
     (load_preset_from_json (Indices := Indices) float_of_str int_of_str fs path s).1 =
       inr (mkPreset b ur up c br g)).
  { intros b ur up c br g Hb Hur Hup Hco Hbr Hg.
    unfold load_preset_from_json.
    rewrite bind_run, path_exists_run, Hex. cbn [negb].
    rewrite bind_run, log_run, bind_run. unfold lift at 1. rewrite Hjson.
    rewrite bind_run, get_float_run, Hb.
    rewrite bind_run, get_float_run, Hur.
    rewrite bind_run, get_int_run, Hup.
    rewrite bind_run, get_float_run, Hco.
    rewrite bind_run, get_float_run, Hbr.
    rewrite bind_run, get_float_run, Hg.
    done. }
  split; [exact Hgen|].
  intros g ->. apply Hgen; unfold field_or_default.
  - by rewrite lookup_singleton_ne.
  - by rewrite lookup_singleton_ne.
  - by rewrite lookup_singleton_ne.
  - by rewrite lookup_singleton_ne.
  - by rewrite lookup_singleton_ne.
  - by rewrite lookup_singleton_eq.
Qed.

End PipelineProperties.

(** ** The properties at work on the demo deployment *)





Lemma load_failure_names_file_and_publishes_nothing_witness :
  _tile_cache Demo.cold = None ∧
  (select_tiles_path (Indices := Demo.Indices) Demo.module_file Demo.fs_one_corrupt
     "tiles" Demo.cold).1 = inr (Some (P "tiles")) ∧
  tile_fails Demo.fs_one_corrupt (P "tiles") "RGB (88, 99, 110).png" ∧
  ∃ e f, (Demo.load Demo.fs_one_corrupt "tiles" Demo.cold).1 = inl e ∧
         mentions (exn_str e) f ∧
         _tile_cache (Demo.load Demo.fs_one_corrupt "tiles" Demo.cold).2 = None.
Proof.
  assert (Hbad : tile_fails Demo.fs_one_corrupt (P "tiles") "RGB (88, 99, 110).png").
  { right. split; [reflexivity|]. by eexists. }
  split; [reflexivity|]. split; [reflexivity|]. split; [exact Hbad|].
  destruct (load_failure_names_file_and_publishes_nothing (Indices := Demo.Indices)
              Demo.module_file Demo.fs_one_corrupt "tiles" Demo.cold (P "tiles")
              eq_refl eq_refl)
    as (pre & idx & f & post & e & _ & _ & _ & Hrun & Hm & _ & _ & Hcache).
  { exists 2, "RGB (88, 99, 110).png". split; [|exact Hbad].
    apply list_elem_of_In. vm_compute. tauto. }
  exists e, f. split; [exact Hrun|]. split; [exact Hm | exact Hcache].
Defined.

Lemma load_tile_images_memoized_witness :
  let r := Demo.load Demo.fs_complete "tiles" Demo.cold in
  r = (inr 0%nat, r.2) ∧
  Demo.load Demo.fs_empty "elsewhere" r.2 = (inr 0%nat, r.2).
Proof.
  assert (Hrun : Demo.load Demo.fs_complete "tiles" Demo.cold =
                 (inr 0%nat, (Demo.load Demo.fs_complete "tiles" Demo.cold).2)).
  { by vm_compute. }
  split; [exact Hrun|].
  exact (proj1 (load_tile_images_memoized Demo.module_file Demo.fs_complete "tiles"
                  Demo.cold 0%nat _ Hrun Demo.fs_empty "elsewhere")).
Defined.

Lemma preset_check_comes_first_witness :
  _global_preset Demo.cold = None ∧
  Demo.handle Demo.fs_complete Demo.garbage 50 Demo.cold =
    (inl (HTTPException 500 "Preset not loaded"), Demo.cold).
Proof.
  split; [reflexivity|].
  exact (preset_check_comes_first Demo.module_file Demo.MAX_PER_COLOR Demo.decode_rgb
           Demo.apply_preset_once Demo.idx_image Demo.render_3d_mosaic Demo.save_png
           Demo.fs_complete Demo.garbage 50 Demo.cold eq_refl).
Defined.

Lemma invalid_size_rejected_early_witness :
  50 ≠ 64 ∧ 50 ≠ 96 ∧
  (Demo.handle Demo.fs_complete Demo.photo 50 Demo.preset_only).2 = Demo.preset_only ∧
  (Demo.handle Demo.fs_complete Demo.photo 50 Demo.preset_only).1 =
    inl (HTTPException 400 "size must be 64 or 96").
Proof.
  assert (H64 : 50 ≠ 64) by discriminate.
  assert (H96 : 50 ≠ 96) by discriminate.
  split; [exact H64|]. split; [exact H96|].
  destruct (invalid_size_rejected_early Demo.module_file Demo.MAX_PER_COLOR
              Demo.decode_rgb Demo.apply_preset_once Demo.idx_image
              Demo.render_3d_mosaic Demo.save_png
              Demo.fs_complete Demo.photo 50 Demo.preset_only H64 H96)
    as (Hstate & Hloaded & _).
  split; [exact Hstate|]. apply Hloaded. by eexists.
Defined.

(** C4 as stated fails: with no preset loaded, a request of size 50 gets the
    500 error, not a 400. *)
Lemma invalid_size_without_preset_is_500 :
  50 ≠ 64 ∧ 50 ≠ 96 ∧
  (Demo.handle Demo.fs_complete Demo.photo 50 Demo.cold).1 =
    inl (HTTPException 500 "Preset not loaded") ∧
  ∀ detail, (Demo.handle Demo.fs_complete Demo.photo 50 Demo.cold).1 ≠
            inl (HTTPException 400 detail).
Proof. repeat split; discriminate. Qed.

Lemma undecodable_upload_rejected_witness :
  upload_read Demo.garbage = inr [] ∧
  Demo.decode_rgb [] = inl "cannot identify image file" ∧
  (Demo.handle Demo.fs_complete Demo.garbage 64 Demo.preset_only).1 =
    inl (HTTPException 400 ("Failed to read image: " +:+ "cannot identify image file")) ∧
  new_events Demo.preset_only
    (Demo.handle Demo.fs_complete Demo.garbage 64 Demo.preset_only).2 =
    [EvFileRead; EvDecode []].
Proof.
  split; [reflexivity|]. split; [reflexivity|].
  destruct (undecodable_upload_rejected Demo.module_file Demo.MAX_PER_COLOR
              Demo.decode_rgb Demo.apply_preset_once Demo.idx_image
              Demo.render_3d_mosaic Demo.save_png
              Demo.fs_complete Demo.garbage 64 Demo.preset_only []
              "cannot identify image file" eq_refl eq_refl)
    as (Hvalid & _).
  destruct Hvalid as (Hrun & _ & Hev); [by eexists | by left |].
  split; [exact Hrun | exact Hev].
Defined.

(** C9 as stated fails: an undecodable upload gets the 500 error while no
    preset is loaded, and, with a preset and a size of 50, the 400 error about
    the size, whose detail says nothing of the decode failure. *)
Lemma undecodable_upload_other_errors :
  upload_read Demo.garbage = inr [] ∧
  Demo.decode_rgb [] = inl "cannot identify image file" ∧
  (Demo.handle Demo.fs_complete Demo.garbage 64 Demo.cold).1 =
    inl (HTTPException 500 "Preset not loaded") ∧
  (Demo.handle Demo.fs_complete Demo.garbage 50 Demo.preset_only).1 =
    inl (HTTPException 400 "size must be 64 or 96") ∧
  ¬ mentions "size must be 64 or 96" "cannot identify image file".
Proof.
  repeat split; try by vm_compute.
  rewrite <- contains_mentions. by vm_compute.
Qed.


Lemma requests_leave_caches_witness :
  let s := (Demo.startup Demo.fs_complete Demo.cold).2 in
  Demo.startup Demo.fs_complete Demo.cold = (inr tt, s) ∧
  shared (Demo.handle Demo.fs_empty Demo.photo 64 s).2 = shared s.
Proof.
  assert (Hstart : Demo.startup Demo.fs_complete Demo.cold =
                   (inr tt, (Demo.startup Demo.fs_complete Demo.cold).2))
    by by vm_compute.
  intros s. split; [exact Hstart|].
  exact (proj2 (proj2 (requests_leave_caches Demo.module_file Demo.float_of_str
                         Demo.int_of_str Demo.MAX_PER_COLOR Demo.decode_rgb
                         Demo.apply_preset_once Demo.idx_image Demo.render_3d_mosaic
                         Demo.save_png Demo.fs_empty Demo.photo 64 s))
           Demo.fs_complete Demo.cold Hstart).
Defined.

(** C2 as stated fails: a request that finds the preset loaded and the tile
    cache empty populates the cache. *)
Lemma request_populates_empty_tile_cache :
  let r := Demo.handle Demo.fs_complete Demo.photo 64 Demo.preset_only in
  _tile_cache Demo.preset_only = None ∧
  r.1 = inr (StreamingResponse [] "image/png") ∧
  _tile_cache r.2 = Some 0%nat ∧
  shared r.2 ≠ shared Demo.preset_only.
Proof.
  repeat split; by vm_compute.
Qed.

Lemma preset_defaults_witness :
  fs_exists Demo.fs_complete PRESET_PATH = true ∧
  fs_json Demo.fs_complete PRESET_PATH = inr (PyDict {[ "gamma" := PyFloat 2%float ]}) ∧
  (load_preset_from_json (Indices := Demo.Indices) Demo.float_of_str Demo.int_of_str
     Demo.fs_complete PRESET_PATH Demo.cold).1 =
    inr (mkPreset 0%float 0%float 0 1%float 1%float 2%float).
Proof.
  split; [reflexivity|]. split; [reflexivity|].
  exact (proj2 (preset_defaults Demo.float_of_str Demo.int_of_str Demo.fs_complete
                  PRESET_PATH {[ "gamma" := PyFloat 2%float ]} Demo.cold
                  eq_refl eq_refl) 2%float eq_refl).
Defined.

(** A present value that [float()] rejects makes the loader raise. *)
Example preset_null_field_raises :
  ∀ fs : FS Demo.Image,
    fs_exists fs PRESET_PATH = true →
    fs_json fs PRESET_PATH = inr (PyDict {[ "gamma" := PyNone ]}) →
    (load_preset_from_json (Indices := Demo.Indices) Demo.float_of_str Demo.int_of_str
       fs PRESET_PATH Demo.cold).1 =
      inl (TypeError "float() argument must be a string or a real number").
Proof.
  intros fs Hex Hjson. unfold load_preset_from_json.
  rewrite bind_run, path_exists_run, Hex. cbn [negb].
  rewrite bind_run. cbn [log]. rewrite bind_run. unfold lift at 1. rewrite Hjson.
  by vm_compute.
Qed.

(** ** The preset loader, beyond the defaults *)

Ltac absent_event H :=
  repeat (apply elem_of_cons in H as [H | H]);
  try discriminate H; try (by apply elem_of_nil in H).

Section PresetLoader.

Context {Image Indices : Type}.
Variable float_of_str : string → option float.
Variable int_of_str : string → option Z.

Abbreviation FS := (FS Image).
Abbreviation event := (event Image Indices).
Abbreviation State := (State Image Indices).

Implicit Types (fs : FS) (s : State) (path : Path).

(** The loader, outcome by outcome. *)
Lemma load_preset_from_json_run fs path s :
  load_preset_from_json float_of_str int_of_str fs path s =
    if fs_exists fs path then
      let s' := add_events s [EvExists path; EvJsonLoad path] in
      match fs_json fs path with
      | inl e => (inl e, s')
      | inr (PyDict d) => (coerce_preset float_of_str int_of_str d, s')
      | inr _ => (inl (AttributeError "object has no attribute 'get'"), s')
      end
    else
      (inl (FileNotFoundError ("Preset JSON not found at: " +:+ path_str path)),
       add_events s [EvExists path]).
Proof.
  unfold load_preset_from_json. rewrite bind_run, path_exists_run.
  destruct (fs_exists fs path); [|done]. cbn [negb].
  rewrite bind_run, log_run, add_events_app, bind_run. unfold lift at 1. cbn [app].
  destruct (fs_json fs path) as [e|v]; [done|].
  destruct v as [| | | | | |d]; try done.
  unfold coerce_preset.
  rewrite bind_run, get_float_run.
  destruct (field_or_default _ d "blur" _) as [e|b]; [done|].
  rewrite bind_run, get_float_run.
  destruct (field_or_default _ d "unsharp_radius" _) as [e|ur]; [done|].
  rewrite bind_run, get_int_run.
  destruct (field_or_default _ d "unsharp_percent" _) as [e|up]; [done|].
  rewrite bind_run, get_float_run.
  destruct (field_or_default _ d "contrast" _) as [e|c]; [done|].
  rewrite bind_run, get_float_run.
  destruct (field_or_default _ d "brightness" _) as [e|br]; [done|].
  rewrite bind_run, get_float_run.
  by destruct (field_or_default _ d "gamma" _) as [e|g].
Qed.

(** The loader writes no global and no dict, whatever it returns. *)
Lemma load_preset_from_json_frame fs path s :
  let r := load_preset_from_json float_of_str int_of_str fs path s in
  shared r.2 = shared s ∧
  new_events s r.2 =
    if fs_exists fs path then [EvExists path; EvJsonLoad path] else [EvExists path].
Proof.
  rewrite load_preset_from_json_run.
  destruct (fs_exists fs path); cbv zeta; [|cbn [snd]; by rewrite new_events_add].
  destruct (fs_json fs path) as [e|[| | | | | |d]]; cbn [snd]; by rewrite new_events_add.
Qed.

(** X1: [load_preset_from_json] is a pure read: whatever it returns or
    raises, both globals and every dict are as before, and its disk accesses
    are one existence check followed, only when the file exists, by one read of
    the file. *)
Theorem preset_loader_is_read_only fs path s :
  let r := load_preset_from_json float_of_str int_of_str fs path s in
  shared r.2 = shared s ∧
  new_events s r.2 =
    if fs_exists fs path then [EvExists path; EvJsonLoad path] else [EvExists path].
Proof. apply load_preset_from_json_frame. Qed.

(** X2: the loader's errors. A path that does not exist raises
    FileNotFoundError with a message that carries the path, and the file is not
    opened; an error of the read or of the JSON parser is raised unchanged; a
    JSON document that is not an object raises AttributeError. *)
Theorem preset_loader_errors fs path s :
  let r := load_preset_from_json float_of_str int_of_str fs path s in
  (fs_exists fs path = false →
   ∃ msg, r.1 = inl (FileNotFoundError msg) ∧ mentions msg (path_str path) ∧
          EvJsonLoad path ∉ new_events s r.2) ∧
  (fs_exists fs path = true → ∀ e, fs_json fs path = inl e → r.1 = inl e) ∧
  (fs_exists fs path = true → ∀ v, fs_json fs path = inr v → (∀ d, v ≠ PyDict d) →
   ∃ msg, r.1 = inl (AttributeError msg)).
Proof.
  rewrite load_preset_from_json_run. cbv zeta. split; [|split].
  - intros ->. eexists. split; [done|]. split; [apply mentions_end|].
    cbn [snd]. rewrite new_events_add. intros Hin. by absent_event Hin.
  - intros -> e ->. done.
  - intros -> v -> Hv. destruct v as [| | | | | |d]; try by eexists.
    by destruct (Hv d).
Qed.

(** X3: on a file that parses to an object, the loader returns a Preset
    exactly when each of the six fields, default or coerced, evaluates; and an
    error it raises is the error of one of those six coercions. *)
Theorem preset_loads_iff_fields_coerce fs path (d : gmap string pyvalue) s :
  fs_exists fs path = true →
  fs_json fs path = inr (PyDict d) →
  let r := load_preset_from_json float_of_str int_of_str fs path s in
  let ffield k dflt := field_or_default (py_float float_of_str) d k dflt in
  let ifield k dflt := field_or_default (py_int int_of_str) d k dflt in
  ((∃ p, r.1 = inr p) ↔
   (∃ b, ffield "blur" 0%float = inr b) ∧
   (∃ ur, ffield "unsharp_radius" 0%float = inr ur) ∧
   (∃ up, ifield "unsharp_percent" 0 = inr up) ∧
   (∃ c, ffield "contrast" 1%float = inr c) ∧
   (∃ br, ffield "brightness" 1%float = inr br) ∧
   (∃ g, ffield "gamma" 1%float = inr g)) ∧
  (∀ e, r.1 = inl e →
     ffield "blur" 0%float = inl e ∨ ffield "unsharp_radius" 0%float = inl e ∨
     ifield "unsharp_percent" 0 = inl e ∨ ffield "contrast" 1%float = inl e ∨
     ffield "brightness" 1%float = inl e ∨ ffield "gamma" 1%float = inl e).
Proof.
  intros Hex Hjson. rewrite load_preset_from_json_run, Hex, Hjson. cbv zeta.
  cbn [fst]. unfold coerce_preset.
  destruct (field_or_default _ d "blur" _) as [e1|b];
    [split; [split; [by intros [? ?] | by intros [[? ?] _]] | intros e [= ->]; tauto]|].
  destruct (field_or_default _ d "unsharp_radius" _) as [e2|ur];
    [split; [split; [by intros [? ?] | by intros (_ & [? ?] & _)]
            | intros e [= ->]; tauto]|].
  destruct (field_or_default _ d "unsharp_percent" _) as [e3|up];
    [split; [split; [by intros [? ?] | by intros (_ & _ & [? ?] & _)]
            | intros e [= ->]; tauto]|].
  destruct (field_or_default _ d "contrast" _) as [e4|c];
    [split; [split; [by intros [? ?] | by intros (_ & _ & _ & [? ?] & _)]
            | intros e [= ->]; tauto]|].
  destruct (field_or_default _ d "brightness" _) as [e5|br];
    [split; [split; [by intros [? ?] | by intros (_ & _ & _ & _ & [? ?] & _)]
            | intros e [= ->]; tauto]|].
  destruct (field_or_default _ d "gamma" _) as [e6|g];
    [split; [split; [by intros [? ?] | by intros (_ & _ & _ & _ & _ & [? ?])]
            | intros e [= ->]; tauto]|].
  split; [|done]. split; [|by eexists].
  intros _. repeat split; by eexists.
Qed.

End PresetLoader.

(** ** The tile resolver, beyond the search *)

Section ResolverExtras.

Context {Image Indices : Type}.
Variable module_file : string.

Abbreviation FS := (FS Image).
Abbreviation event := (event Image Indices).
Abbreviation State := (State Image Indices).

Implicit Types (fs : FS) (s : State) (d : Path) (f : string).

(** What the loading loop returns depends on the disk only. *)
Lemma load_loop_result_disk_only fs d (l l' : loc) (items : list (Z * string)) s s' :
  (load_loop fs d l items s).1 = (load_loop fs d l' items s').1.
Proof.
  revert s s'. induction items as [|[idx f] rest IH]; intros s s'; [done|].
  rewrite !load_loop_cons.
  destruct (fs_exists fs (d </> f)); [|done].
  destruct (fs_open_rgb fs (d </> f)) as [msg|img]; [done|]. apply IH.
Qed.

(** When every entry loads, the loop returns and the dict at [l] holds, under
    each index, the image opened from that entry's file; other keys are as
    before. *)
Lemma load_loop_ok fs d (l : loc) (items : list (Z * string)) s (tiles0 : gmap Z Image) :
  heap s !! l = Some tiles0 →
  (∀ idx f, (idx, f) ∈ items → ∃ img, tile_ok fs d f img) →
  ∃ tiles,
    (load_loop fs d l items s).1 = inr tt ∧
    heap (load_loop fs d l items s).2 !! l = Some tiles ∧
    (∀ k, k ∉ items.*1 → tiles !! k = tiles0 !! k) ∧
    (NoDup items.*1 → ∀ idx f, (idx, f) ∈ items →
       ∃ img, fs_open_rgb fs (d </> f) = inr img ∧ tiles !! idx = Some img).
Proof.
  revert s tiles0. induction items as [|[idx f] rest IH]; intros s tiles0 Hl Hok.
  - exists tiles0. repeat split; try done. intros _ idx f Hin. by apply elem_of_nil in Hin.
  - rewrite load_loop_cons.
    destruct (Hok idx f) as (img & Hex & Hopen); [by left|].
    rewrite Hex, Hopen.
    set (s1 := (dict_setitem l idx img _).2).
    assert (Hl1 : heap s1 !! l = Some (<[idx := img]> tiles0)).
    { subst s1. cbn [snd dict_setitem heap add_events].
      rewrite list_lookup_alter_eq.
      exact (f_equal (fmap (M := option) (λ m : gmap Z Image, <[idx := img]> m)) Hl). }
    destruct (IH s1 (<[idx := img]> tiles0) Hl1) as (tiles & Hrun & Hheap & Hother & Hmine).
    { intros idx' f' Hin. apply (Hok idx' f'). by right. }
    exists tiles. split; [done|]. split; [done|]. split.
    + intros k Hk. rewrite fmap_cons in Hk. cbn [fst] in Hk.
      apply not_elem_of_cons in Hk as [Hne Hk].
      rewrite (Hother k Hk). by rewrite lookup_insert_ne.
    + rewrite fmap_cons. cbn [fst]. intros [Hfresh Hnodup]%NoDup_cons idx' f' Hin.
      apply elem_of_cons in Hin as [[= -> ->] | Hin].
      * exists img. split; [done|]. rewrite (Hother idx Hfresh).
        by rewrite lookup_insert_eq.
      * by apply Hmine.
Qed.

Lemma TILE_MAP_keys : NoDup TILE_MAP.*1.
Proof. by apply (bool_decide_unpack _). Qed.

(** An uncached load that settles on a directory holding every tile returns a
    fresh dict with the five images, and publishes it. *)
Lemma load_populates fs (tiles_dir : string) s d :
  _tile_cache s = None →
  selected module_file fs tiles_dir = Some d →
  tiles_complete fs d →
  let r := load_tile_images (Indices := Indices) module_file fs tiles_dir s in
  let l := length (heap s) in
  r.1 = inr l ∧ _tile_cache r.2 = Some l ∧ _global_preset r.2 = _global_preset s ∧
  (∀ l', (l' < l)%nat → heap r.2 !! l' = heap s !! l') ∧
  ∃ tiles, heap r.2 !! l = Some tiles ∧
    (∀ idx f, (idx, f) ∈ TILE_MAP →
       ∃ img, fs_open_rgb fs (d </> f) = inr img ∧ tiles !! idx = Some img) ∧
    (∀ k, k ∉ TILE_MAP.*1 → tiles !! k = None).
Proof.
  intros Hc Hsel Hok. rewrite load_tile_images_uncached by done.
  rewrite Hsel. cbv zeta.
  set (s1 := (new_dict _).2).
  assert (Hl1 : heap s1 !! length (heap s) = Some (∅ : gmap Z Image)).
  { subst s1. cbn [snd new_dict heap add_events]. by rewrite list_lookup_middle. }
  destruct (load_loop_ok fs d (length (heap s)) TILE_MAP s1 ∅ Hl1 Hok)
    as (tiles & Hrun & Hheap & Hother & Hmine).
  destruct (load_loop_frame fs d (length (heap s)) TILE_MAP s1)
    as (Hcache & Hpreset & _ & _ & Hframe).
  destruct (load_loop fs d (length (heap s)) TILE_MAP s1) as [[e|[]] s2];
    [discriminate|]. cbn [fst snd] in *.
  repeat split; try done.
  - intros l' Hl'. rewrite Hframe by lia. subst s1.
    cbn [snd new_dict heap add_events]. by rewrite lookup_app_l.
  - exists tiles. split; [done|]. split.
    + by apply Hmine, TILE_MAP_keys.
    + intros k Hk. by rewrite (Hother k Hk).
Qed.

(** What the resolver returns depends on the disk, on whether the cache is
    populated and on the next free address; the trace and the preset play no
    part. *)
Lemma load_result_state fs (tiles_dir : string) s s' :
  _tile_cache s = _tile_cache s' →
  length (heap s) = length (heap s') →
  (load_tile_images module_file fs tiles_dir s).1 =
  (load_tile_images module_file fs tiles_dir s').1.
Proof.
  intros Hc Hlen. destruct (_tile_cache s) as [l|] eqn:Hs.
  - rewrite (load_tile_images_cached module_file fs tiles_dir l s Hs).
    by rewrite (load_tile_images_cached module_file fs tiles_dir l s').
  - rewrite !load_tile_images_uncached by done. cbv zeta.
    destruct (selected module_file fs tiles_dir) as [d|]; [|done].
    rewrite Hlen.
    pose proof (load_loop_result_disk_only fs d (length (heap s')) (length (heap s'))
                  TILE_MAP (new_dict (add_events s
                     (selection_accesses module_file fs tiles_dir))).2
                  (new_dict (add_events s'
                     (selection_accesses module_file fs tiles_dir))).2) as Hres.
    destruct (load_loop _ _ _ _ (new_dict (add_events s _)).2) as [[e|[]] s2];
      destruct (load_loop _ _ _ _ (new_dict (add_events s' _)).2) as [[e'|[]] s2'];
      cbn [fst] in *; congruence.
Qed.

(** A call that raises found the cache empty and leaves it empty. *)
Lemma load_failure_unpublished fs (tiles_dir : string) s (e : exn) :
  (load_tile_images (Indices := Indices) module_file fs tiles_dir s).1 = inl e →
  _tile_cache s = None ∧
  _tile_cache (load_tile_images (Indices := Indices) module_file fs tiles_dir s).2 = None.
Proof.
  destruct (_tile_cache s) as [l|] eqn:Hs.
  - by rewrite (load_tile_images_cached module_file fs tiles_dir l s Hs).
  - rewrite load_tile_images_uncached by done. cbv zeta.
    destruct (selected module_file fs tiles_dir) as [d|]; [|done].
    set (s1 := (new_dict _).2).
    destruct (load_loop_frame fs d (length (heap s)) TILE_MAP s1) as (Hcache & _).
    destruct (load_loop fs d (length (heap s)) TILE_MAP s1) as [[e'|[]] s2];
      [|discriminate].
    intros _. split; [done|]. cbn [snd] in *. by rewrite Hcache.
Qed.

(** X4: an uncached call whose search settles on a directory from which
    every catalog tile loads returns a fresh dict, publishes it as the cache,
    and that dict maps each of the five palette indices to the image opened
    from that entry's file in the selected directory, and has no other key;
    the dicts that existed before and the preset are untouched. *)
Theorem tile_cache_population fs (tiles_dir : string) s d :
  _tile_cache s = None →
  (select_tiles_path (Indices := Indices) module_file fs tiles_dir s).1 = inr (Some d) →
  tiles_complete fs d →
  let r := load_tile_images (Indices := Indices) module_file fs tiles_dir s in
  let l := length (heap s) in
  r.1 = inr l ∧ _tile_cache r.2 = Some l ∧ _global_preset r.2 = _global_preset s ∧
  (∀ l', (l' < l)%nat → heap r.2 !! l' = heap s !! l') ∧
  ∃ tiles, heap r.2 !! l = Some tiles ∧
    (∀ idx f, (idx, f) ∈ TILE_MAP →
       ∃ img, fs_open_rgb fs (d </> f) = inr img ∧ tiles !! idx = Some img) ∧
    (∀ k, k ∉ TILE_MAP.*1 → tiles !! k = None).
Proof.
  intros Hc Hsel Hok. rewrite select_tiles_path_run in Hsel.
  cbn [fst] in Hsel. injection Hsel as Hsel.
  by apply load_populates.
Qed.

(** X5: a call that raises found the cache empty and leaves it empty, so the
    next call searches again: if by then the search settles on a directory
    from which every tile loads, that call returns a dict and publishes it. *)
Theorem failed_load_is_retried fs1 (tiles_dir1 : string) s (e : exn)
    fs2 (tiles_dir2 : string) d :
  (load_tile_images (Indices := Indices) module_file fs1 tiles_dir1 s).1 = inl e →
  (select_tiles_path (Indices := Indices) module_file fs2 tiles_dir2 s).1 = inr (Some d) →
  tiles_complete fs2 d →
  let s1 := (load_tile_images (Indices := Indices) module_file fs1 tiles_dir1 s).2 in
  let r := load_tile_images module_file fs2 tiles_dir2 s1 in
  _tile_cache s = None ∧ _tile_cache s1 = None ∧
  r.1 = inr (length (heap s1)) ∧ _tile_cache r.2 = Some (length (heap s1)).
Proof.
  intros Hfail Hsel Hok s1 r. rewrite select_tiles_path_run in Hsel.
  cbn [fst] in Hsel. injection Hsel as Hsel.
  destruct (load_failure_unpublished fs1 tiles_dir1 s e Hfail) as [Hs Hs1].
  destruct (load_populates fs2 tiles_dir2 s1 d Hs1 Hsel Hok) as (Hrun & Hcache & _).
  by repeat split.
Qed.

(** X6: whatever the state and the disk, [load_tile_images] leaves the preset
    and every existing dict as they were, allocates at most one dict, logs
    disk accesses only, and leaves the cache as it was unless it publishes the
    dict it has just allocated. *)
Theorem load_tile_images_invariants fs (tiles_dir : string) s :
  let r := load_tile_images (Indices := Indices) module_file fs tiles_dir s in
  _global_preset r.2 = _global_preset s ∧
  (∀ l', (l' < length (heap s))%nat → heap r.2 !! l' = heap s !! l') ∧
  (length (heap r.2) ≤ S (length (heap s)))%nat ∧
  Forall (λ e : event, is_disk_event e = true) (new_events s r.2) ∧
  (_tile_cache r.2 = _tile_cache s ∨ _tile_cache r.2 = Some (length (heap s))).
Proof.
  destruct (load_tile_images_frame module_file fs tiles_dir s) as (Hp & evs & Ht & Hdisk).
  cbv zeta. split; [done|]. rewrite (new_events_trace _ _ _ Ht).
  destruct (_tile_cache s) as [l|] eqn:Hc.
  - rewrite (load_tile_images_cached module_file fs tiles_dir l s Hc). cbn [snd].
    repeat split; try done; [lia | by left].
  - rewrite load_tile_images_uncached by done. cbv zeta.
    destruct (selected module_file fs tiles_dir) as [d|].
    + set (s1 := (new_dict _).2).
      assert (Hh1 : heap s1 = heap s ++ [∅]) by done.
      destruct (load_loop_frame fs d (length (heap s)) TILE_MAP s1)
        as (Hcache & _ & _ & Hlen & Hframe).
      assert (Hold : ∀ s2, heap s2 = heap (load_loop fs d (length (heap s)) TILE_MAP s1).2 →
                ∀ l', (l' < length (heap s))%nat → heap s2 !! l' = heap s !! l').
      { intros s2 -> l' Hl'. rewrite Hframe by lia. rewrite Hh1. by rewrite lookup_app_l. }
      assert (Hsize : length (heap (load_loop fs d (length (heap s)) TILE_MAP s1).2) =
                      S (length (heap s))).
      { rewrite Hlen, Hh1, length_app. simpl. lia. }
      destruct (load_loop fs d (length (heap s)) TILE_MAP s1) as [[e|[]] s2];
        cbn [fst snd set_tile_cache heap _tile_cache] in *.
      * repeat split; try done; [by apply Hold | lia | left; by rewrite Hcache].
      * repeat split; try done; [by apply Hold | lia | by right].
    + cbn [snd add_events heap _tile_cache]. repeat split; try done; [lia | by left].
Qed.

End ResolverExtras.

(** ** The request pipeline and the startup hook, beyond the guards *)

Section PipelineExtras.

Context {Image Indices : Type}.
Variable module_file : string.
Variable float_of_str : string → option float.
Variable int_of_str : string → option Z.
Variable MAX_PER_COLOR : Z.
Variable decode_rgb : bytes → string + Image.
Variable apply_preset_once : Image → Preset → Z → Z → string + Image.
Variable idx_image : Image → string + Indices.
Variable render_3d_mosaic : Indices → gmap Z Image → Z * Z → string + Image.
Variable save_png : Image → string + bytes.

Abbreviation FS := (FS Image).
Abbreviation event := (event Image Indices).
Abbreviation State := (State Image Indices).

Implicit Types (fs : FS) (s : State) (file : UploadFile) (size : Z).

Lemma size_guard_passes size :
  size = 64 ∨ size = 96 →
  negb (bool_decide (size = 64) || bool_decide (size = 96)) = false.
Proof. by intros [-> | ->]. Qed.

(** X7: the whole pipeline on a good request. With the preset loaded, a size
    of 64 or 96, an upload that decodes, three stages that return and a
    populated tile cache, the handler answers with the PNG bytes under media
    type image/png; it has read and decoded the upload, called the adjust
    stage with the preset, the size and the budget of that size, the index
    stage on its result, the resolver, the render stage with the cached dict
    and the bound (1920, 1080), then the PNG encoder, in that order and
    nothing else. *)
Theorem request_success fs file size s (p : Preset) (raw : bytes)
    (img mosaic_2d mosaic_3d : Image) (indices : Indices) (l : loc)
    (tiles : gmap Z Image) (buf : bytes) :
  _global_preset s = Some p →
  size = 64 ∨ size = 96 →
  upload_read file = inr raw →
  decode_rgb raw = inr img →
  apply_preset_once img p size (max_per_color_for MAX_PER_COLOR size) = inr mosaic_2d →
  idx_image mosaic_2d = inr indices →
  _tile_cache s = Some l →
  heap s !! l = Some tiles →
  render_3d_mosaic indices tiles (1920, 1080) = inr mosaic_3d →
  save_png mosaic_3d = inr buf →
  generate_lego_mosaic_3d module_file MAX_PER_COLOR decode_rgb apply_preset_once
    idx_image render_3d_mosaic save_png fs file size s =
  (inr (StreamingResponse buf "image/png"),
   add_events s
     [EvFileRead; EvDecode raw;
      EvApplyPresetOnce img p size (max_per_color_for MAX_PER_COLOR size);
      EvIdxImage mosaic_2d; EvLoadTileImages;
      EvRender indices l (1920, 1080); EvSavePng mosaic_3d]).
Proof.
  intros Hp Hsize Hread Hdec Happly Hidx Hc Hheap Hrender Hsave.
  rewrite handler_run, Hp, (size_guard_passes size Hsize), Hread, Hdec.
  cbv zeta. rewrite Happly, Hidx, render_stage_run.
  rewrite (load_tile_images_cached module_file fs "tiles" l) by done.
  cbn [heap add_events]. rewrite Hheap, Hrender. cbv zeta. rewrite Hsave.
  by rewrite !add_events_app.
Qed.

(** X8: a failure of the adjust stage or of the index stage is answered by a
    500 error whose detail is the stage's prefix followed by the text of the
    failure, and nothing runs after the failing stage: no later stage, no
    resolver call, no encoding. *)
Theorem processing_failures_are_500 fs file size s (p : Preset) (raw : bytes) (img : Image) :
  _global_preset s = Some p →
  size = 64 ∨ size = 96 →
  upload_read file = inr raw →
  decode_rgb raw = inr img →
  let budget := max_per_color_for MAX_PER_COLOR size in
  let run := generate_lego_mosaic_3d module_file MAX_PER_COLOR decode_rgb
               apply_preset_once idx_image render_3d_mosaic save_png fs file size s in
  (∀ msg, apply_preset_once img p size budget = inl msg →
     run = (inl (HTTPException 500 ("Error generating 2D mosaic: " +:+ msg)),
            add_events s [EvFileRead; EvDecode raw;
                          EvApplyPresetOnce img p size budget])) ∧
  (∀ mosaic_2d msg,
     apply_preset_once img p size budget = inr mosaic_2d →
     idx_image mosaic_2d = inl msg →
     run = (inl (HTTPException 500 ("Error computing palette indices: " +:+ msg)),
            add_events s [EvFileRead; EvDecode raw;
                          EvApplyPresetOnce img p size budget;
                          EvIdxImage mosaic_2d])).
Proof.
  intros Hp Hsize Hread Hdec budget run. subst run budget.
  rewrite handler_run, Hp, (size_guard_passes size Hsize), Hread, Hdec. cbv zeta.
  split.
  - by intros msg ->.
  - by intros mosaic_2d msg -> ->.
Qed.

(** X9: failures of the third stage. When the tile resolver raises (the
    cache was empty and the tiles cannot be loaded), the request is answered
    by a 500 error whose detail carries the resolver's message, the render
    stage is not called and the cache stays empty; when the render stage
    itself raises, the answer is a 500 error with its text and nothing is
    encoded. *)
Theorem render_stage_failures fs file size s (p : Preset) (raw : bytes)
    (img mosaic_2d : Image) (indices : Indices) :
  _global_preset s = Some p →
  size = 64 ∨ size = 96 →
  upload_read file = inr raw →
  decode_rgb raw = inr img →
  apply_preset_once img p size (max_per_color_for MAX_PER_COLOR size) = inr mosaic_2d →
  idx_image mosaic_2d = inr indices →
  let r := generate_lego_mosaic_3d module_file MAX_PER_COLOR decode_rgb
             apply_preset_once idx_image render_3d_mosaic save_png fs file size s in
  (∀ e, (load_tile_images (Indices := Indices) module_file fs "tiles" s).1 = inl e →
     r.1 = inl (HTTPException 500 ("Error generating 3D mosaic: " +:+ exn_str e)) ∧
     _tile_cache r.2 = None ∧
     ∀ ix l b, EvRender ix l b ∉ new_events s r.2) ∧
  (∀ l tiles msg,
     _tile_cache s = Some l → heap s !! l = Some tiles →
     render_3d_mosaic indices tiles (1920, 1080) = inl msg →
     r = (inl (HTTPException 500 ("Error generating 3D mosaic: " +:+ msg)),
          add_events s
            [EvFileRead; EvDecode raw;
             EvApplyPresetOnce img p size (max_per_color_for MAX_PER_COLOR size);
             EvIdxImage mosaic_2d; EvLoadTileImages;
             EvRender indices l (1920, 1080)])).
Proof.
  intros Hp Hsize Hread Hdec Happly Hidx r. subst r.
  rewrite handler_run, Hp, (size_guard_passes size Hsize), Hread, Hdec.
  cbv zeta. rewrite Happly, Hidx, render_stage_run. split.
  - intros e He.
    match goal with |- context [load_tile_images _ _ _ ?s0] => set (s1 := s0) end.
    assert (He1 : (load_tile_images module_file fs "tiles" s1).1 = inl e).
    { rewrite <- He. by apply load_result_state. }
    destruct (load_failure_unpublished module_file fs "tiles" s1 e He1) as [_ Hcache].
    destruct (load_tile_images_frame module_file fs "tiles" s1) as (_ & evs & Ht & Hdisk).
    destruct (load_tile_images module_file fs "tiles" s1) as [[e'|l] s2];
      cbn [fst snd] in *; [|discriminate].
    injection He1 as ->. split; [done|]. split; [done|].
    intros ix l b Hin. subst s1. cbn [trace add_events] in Ht.
    rewrite <- !app_assoc in Ht. rewrite (new_events_trace _ _ _ Ht) in Hin.
    rewrite !elem_of_app in Hin.
    destruct Hin as [Hin | [Hin | Hin]]; [by absent_event Hin | by absent_event Hin |].
    rewrite Forall_forall in Hdisk. by apply Hdisk in Hin.
  - intros l tiles msg Hc Hheap Hrender.
    rewrite (load_tile_images_cached module_file fs "tiles" l) by done.
    cbn [heap add_events]. rewrite Hheap, Hrender. cbv zeta.
    by rewrite !add_events_app.
Qed.


Lemma handler_no_disk_when_cached fs file size s :
  is_Some (_tile_cache s) →
  Forall (λ e : event, is_disk_event e = false)
    (new_events s
       (generate_lego_mosaic_3d module_file MAX_PER_COLOR decode_rgb apply_preset_once
          idx_image render_3d_mosaic save_png fs file size s).2).
Proof.
  intros [l Hc]. rewrite handler_run.
  assert (Hnone : new_events s s = []).
  { unfold new_events. by rewrite drop_all. }
  destruct (_global_preset s) as [p|]; [|cbn [snd]; rewrite Hnone; constructor].
  destruct (negb _); [cbn [snd]; rewrite Hnone; constructor|].
  destruct (upload_read file) as [msg|raw];
    [cbn [snd]; rewrite new_events_add;
     repeat (apply List.Forall_cons; [done|]); apply List.Forall_nil|].
  destruct (decode_rgb raw) as [msg|img];
    [cbn [snd]; rewrite new_events_add;
     repeat (apply List.Forall_cons; [done|]); apply List.Forall_nil|].
  cbv zeta.
  destruct (apply_preset_once _ _ _ _) as [msg|mosaic_2d];
    [cbn [snd]; rewrite new_events_add;
     repeat (apply List.Forall_cons; [done|]); apply List.Forall_nil|].
  destruct (idx_image mosaic_2d) as [msg|indices];
    [cbn [snd]; rewrite new_events_add;
     repeat (apply List.Forall_cons; [done|]); apply List.Forall_nil|].
  rewrite render_stage_run.
  rewrite (load_tile_images_cached module_file fs "tiles" l) by done. cbv zeta.
  destruct (heap _ !! l) as [tiles|];
    [destruct (render_3d_mosaic _ _ _) as [msg|mosaic_3d];
      [|destruct (save_png mosaic_3d)]|];
    cbn [snd]; rewrite !add_events_app, new_events_add;
    repeat (apply List.Forall_cons; [done|]); apply List.Forall_nil.
Qed.

(** X11: a request that finds the tile cache populated makes no disk access
    at all: no existence check, no image opened, no file read. This is the
    case of every request served after a startup hook that returned. *)
Theorem cached_requests_touch_no_disk fs file size s :
  let r := generate_lego_mosaic_3d module_file MAX_PER_COLOR decode_rgb apply_preset_once
             idx_image render_3d_mosaic save_png fs file size s in
  (is_Some (_tile_cache s) →
   Forall (λ e : event, is_disk_event e = false) (new_events s r.2)) ∧
  (∀ fs0 s0,
     startup_event (Indices := Indices) module_file float_of_str int_of_str fs0 s0 =
       (inr tt, s) →
     Forall (λ e : event, is_disk_event e = false) (new_events s r.2)).
Proof.
  split.
  - apply handler_no_disk_when_cached.
  - intros fs0 s0 [Hc _]%startup_populates. by apply handler_no_disk_when_cached.
Qed.

Lemma filter_stage_of_disk (evs : list event) :
  Forall (λ e : event, is_disk_event e = true) evs →
  filter (λ e : event, is_stage_event e = true) evs = [].
Proof.
  induction 1 as [|e evs He _ IH]; [done|].
  rewrite filter_cons, IH. by destruct e.
Qed.

(** X12: the three processing stages run in the fixed order adjust, index,
    render, each at most once and each on the result of the one before: the
    stage calls of a request are none, or the adjust call alone, or the adjust
    call and the index call on its result, or those two and the render call on
    the indices, with the bound (1920, 1080). *)
Theorem stages_run_in_order fs file size s :
  let r := generate_lego_mosaic_3d module_file MAX_PER_COLOR decode_rgb apply_preset_once
             idx_image render_3d_mosaic save_png fs file size s in
  let calls := filter (λ e : event, is_stage_event e = true) (new_events s r.2) in
  let budget := max_per_color_for MAX_PER_COLOR size in
  calls = [] ∨
  ∃ img p,
    _global_preset s = Some p ∧
    (calls = [EvApplyPresetOnce img p size budget] ∨
     ∃ mosaic_2d,
       apply_preset_once img p size budget = inr mosaic_2d ∧
       (calls = [EvApplyPresetOnce img p size budget; EvIdxImage mosaic_2d] ∨
        ∃ indices l,
          idx_image mosaic_2d = inr indices ∧
          calls = [EvApplyPresetOnce img p size budget; EvIdxImage mosaic_2d;
                   EvRender indices l (1920, 1080)])).
Proof.
  cbv zeta. rewrite handler_run.
  assert (Hnone : new_events s s = []).
  { unfold new_events. by rewrite drop_all. }
  destruct (_global_preset s) as [p|]; [|left; cbn [snd]; by rewrite Hnone].
  destruct (negb _); [left; cbn [snd]; by rewrite Hnone|].
  destruct (upload_read file) as [msg|raw];
    [left; cbn [snd]; by rewrite new_events_add|].
  destruct (decode_rgb raw) as [msg|img];
    [left; cbn [snd]; by rewrite new_events_add|].
  right. exists img, p. split; [done|].
  destruct (apply_preset_once _ _ _ _) as [msg|mosaic_2d] eqn:Happly;
    [left; cbn [snd]; by rewrite new_events_add|].
  right. exists mosaic_2d. split; [done|].
  destruct (idx_image mosaic_2d) as [msg|indices] eqn:Hidx;
    [left; cbn [snd]; by rewrite new_events_add|].
  rewrite render_stage_run.
  match goal with |- context [load_tile_images _ _ _ ?s0] => set (s1 := s0) end.
  destruct (load_tile_images_frame module_file fs "tiles" s1) as (_ & evs & Ht & Hdisk).
  pose proof (filter_stage_of_disk evs Hdisk) as Hevs.
  subst s1. cbn [trace add_events] in Ht. rewrite <- !app_assoc in Ht.
  destruct (load_tile_images _ _ _ _) as [[e|l] s2]; cbn [fst snd] in Ht.
  { left. cbn [snd]. rewrite (new_events_trace _ _ _ Ht).
    rewrite !filter_app, Hevs. done. }
  cbv zeta.
  assert (Hrender : ∀ tail : list event,
            filter (λ e : event, is_stage_event e = true) tail = [] →
            filter (λ e : event, is_stage_event e = true)
              (new_events s (add_events s2 (EvRender indices l (1920, 1080) :: tail))) =
            [EvApplyPresetOnce img p size (max_per_color_for MAX_PER_COLOR size);
             EvIdxImage mosaic_2d; EvRender indices l (1920, 1080)]).
  { intros tail Htail.
    assert (Ht' : trace (add_events s2 (EvRender indices l (1920, 1080) :: tail)) =
                  trace s ++
                  [EvFileRead; EvDecode raw;
                   EvApplyPresetOnce img p size (max_per_color_for MAX_PER_COLOR size);
                   EvIdxImage mosaic_2d] ++ [EvLoadTileImages] ++ evs ++
                  EvRender indices l (1920, 1080) :: tail).
    { cbn [trace add_events]. rewrite Ht. by rewrite <- !app_assoc. }
    rewrite (new_events_trace _ _ _ Ht').
    change (EvRender indices l (1920, 1080) :: tail)
      with ([EvRender indices l (1920, 1080) : event] ++ tail).
    by rewrite !filter_app, Hevs, Htail. }
  right. exists indices, l. split; [done|].
  destruct (heap s2 !! l) as [tiles|];
    [destruct (render_3d_mosaic _ _ _) as [msg|mosaic_3d];
      [|destruct (save_png mosaic_3d)]|];
    cbn [snd]; rewrite ?add_events_app; by apply Hrender.
Qed.

(** X13: a startup whose preset cannot be loaded raises the loader's error
    without calling the tile resolver, and leaves both globals as they
    were. *)
Theorem startup_fails_without_preset fs s (e : exn) :
  (load_preset_from_json (Indices := Indices) float_of_str int_of_str
     fs PRESET_PATH s).1 = inl e →
  let r := startup_event (Indices := Indices) module_file float_of_str int_of_str fs s in
  r.1 = inl e ∧ shared r.2 = shared s ∧ EvLoadTileImages ∉ new_events s r.2.
Proof.
  intros He. unfold startup_event. rewrite bind_run.
  destruct (load_preset_from_json_frame float_of_str int_of_str fs PRESET_PATH s)
    as [Hshared Hev].
  destruct (load_preset_from_json _ _ _ _ _) as [[e'|p] s1]; [|discriminate].
  cbn [fst snd] in *. injection He as ->. split; [done|]. split; [done|].
  rewrite Hev. intros Hin. destruct (fs_exists fs PRESET_PATH); by absent_event Hin.
Qed.

(** X14: a startup whose preset loads but whose tiles cannot be loaded raises
    the resolver's error after having stored the preset: the process is left
    with the preset loaded and the tile cache empty. *)
Theorem startup_fails_on_tiles fs s (p : Preset) (e : exn) :
  _tile_cache s = None →
  (load_preset_from_json (Indices := Indices) float_of_str int_of_str
     fs PRESET_PATH s).1 = inr p →
  (load_tile_images (Indices := Indices) module_file fs "tiles" s).1 = inl e →
  let r := startup_event (Indices := Indices) module_file float_of_str int_of_str fs s in
  r.1 = inl e ∧ _global_preset r.2 = Some p ∧ _tile_cache r.2 = None.
Proof.
  intros Hc Hp He. unfold startup_event. rewrite bind_run.
  destruct (load_preset_from_json_frame float_of_str int_of_str fs PRESET_PATH s)
    as [Hshared _].
  destruct (load_preset_from_json _ _ _ _ _) as [[e'|p'] s1]; [discriminate|].
  cbn [fst snd] in *. injection Hp as ->. injection Hshared as Hc1 _ Hh1.
  rewrite bind_run. cbn [set_global_preset]. rewrite bind_run, log_run, bind_run.
  match goal with |- context [load_tile_images _ _ _ ?s0] => set (s2 := s0) end.
  assert (He2 : (load_tile_images module_file fs "tiles" s2).1 = inl e).
  { rewrite <- He. apply load_result_state; subst s2; cbn; congruence. }
  destruct (load_failure_unpublished module_file fs "tiles" s2 e He2) as [_ Hcache].
  destruct (load_tile_images_frame module_file fs "tiles" s2) as (Hpreset & _).
  destruct (load_tile_images module_file fs "tiles" s2) as [[e'|l] s3];
    cbn [fst snd] in *; [|discriminate].
  by injection He2 as ->.
Qed.

(** X15: a startup whose preset loads and whose tile search settles on a
    directory from which every tile loads returns with both globals set: the
    preset is the loaded one, the tile cache is a fresh dict that maps each
    palette index to the image of its file. *)
Theorem startup_success fs s (p : Preset) (d : Path) :
  _tile_cache s = None →
  (load_preset_from_json (Indices := Indices) float_of_str int_of_str
     fs PRESET_PATH s).1 = inr p →
  (select_tiles_path (Indices := Indices) module_file fs "tiles" s).1 = inr (Some d) →
  tiles_complete fs d →
  let r := startup_event (Indices := Indices) module_file float_of_str int_of_str fs s in
  let l := length (heap s) in
  r.1 = inr tt ∧ _global_preset r.2 = Some p ∧ _tile_cache r.2 = Some l ∧
  ∃ tiles, heap r.2 !! l = Some tiles ∧
    ∀ idx f, (idx, f) ∈ TILE_MAP →
      ∃ img, fs_open_rgb fs (d </> f) = inr img ∧ tiles !! idx = Some img.
Proof.
  intros Hc Hp Hsel Hok. rewrite select_tiles_path_run in Hsel.
  cbn [fst] in Hsel. injection Hsel as Hsel.
  unfold startup_event. rewrite bind_run.
  destruct (load_preset_from_json_frame float_of_str int_of_str fs PRESET_PATH s)
    as [Hshared _].
  destruct (load_preset_from_json _ _ _ _ _) as [[e'|p'] s1]; [discriminate|].
  cbn [fst snd] in *. injection Hp as ->. injection Hshared as Hc1 _ Hh1.
  rewrite bind_run. cbn [set_global_preset]. rewrite bind_run, log_run, bind_run.
  match goal with |- context [load_tile_images _ _ _ ?s0] => set (s2 := s0) end.
  assert (Hc2 : _tile_cache s2 = None) by (subst s2; cbn; congruence).
  assert (Hh2 : heap s2 = heap s) by (subst s2; cbn; congruence).
  destruct (load_populates module_file fs "tiles" s2 d Hc2 Hsel Hok)
    as (Hrun & _ & Hpreset & _ & tiles & Hheap & Hmine & _).
  rewrite Hh2 in Hrun, Hheap.
  destruct (load_tile_images module_file fs "tiles" s2) as [[e'|l] s3];
    cbn [fst snd] in *; [discriminate|].
  injection Hrun as ->. cbn. repeat split; try done.
  by exists tiles.
Qed.

(** X16: the lazy path through a request. A request that reaches the render
    stage with the tile cache empty, while the tile search settles on a
    directory from which every tile loads, populates the cache with a fresh
    dict of the five images and hands that same dict to the render stage;
    the cache stays populated whatever the render stage and the encoder then
    do. *)
Theorem request_populates_cache_lazily fs file size s (p : Preset) (raw : bytes)
    (img mosaic_2d : Image) (indices : Indices) (d : Path) :
  _global_preset s = Some p →
  size = 64 ∨ size = 96 →
  upload_read file = inr raw →
  decode_rgb raw = inr img →
  apply_preset_once img p size (max_per_color_for MAX_PER_COLOR size) = inr mosaic_2d →
  idx_image mosaic_2d = inr indices →
  _tile_cache s = None →
  (select_tiles_path (Indices := Indices) module_file fs "tiles" s).1 = inr (Some d) →
  tiles_complete fs d →
  let r := generate_lego_mosaic_3d module_file MAX_PER_COLOR decode_rgb
             apply_preset_once idx_image render_3d_mosaic save_png fs file size s in
  let l := length (heap s) in
  _tile_cache r.2 = Some l ∧
  EvRender indices l (1920, 1080) ∈ new_events s r.2 ∧
  ∃ tiles, heap r.2 !! l = Some tiles ∧
    ∀ idx f, (idx, f) ∈ TILE_MAP →
      ∃ tile, fs_open_rgb fs (d </> f) = inr tile ∧ tiles !! idx = Some tile.
Proof.
  intros Hp Hsize Hread Hdec Happly Hidx Hc Hsel Hok.
  rewrite select_tiles_path_run in Hsel. cbn [fst] in Hsel. injection Hsel as Hsel.
  rewrite handler_run, Hp, (size_guard_passes size Hsize), Hread, Hdec.
  cbv zeta. rewrite Happly, Hidx, render_stage_run.
  match goal with |- context [load_tile_images _ _ _ ?s0] => set (s1 := s0) end.
  assert (Hc1 : _tile_cache s1 = None) by done.
  destruct (load_populates module_file fs "tiles" s1 d Hc1 Hsel Hok)
    as (Hrun & Hcache & _ & _ & tiles & Hheap & Hmine & _).
  destruct (load_tile_images_frame module_file fs "tiles" s1) as (_ & evs & Ht & _).
  change (length (heap s1)) with (length (heap s)) in *.
  destruct (load_tile_images module_file fs "tiles" s1) as [[e|l] s2];
    cbn [fst snd] in *; [discriminate|].
  injection Hrun as ->. unfold loc in *. rewrite Hheap.
  assert (Hin : ∀ tail : list event,
            EvRender indices (length (heap s)) (1920, 1080) ∈
              new_events s
                (add_events s2 (EvRender indices (length (heap s)) (1920, 1080) :: tail))).
  { intros tail. unfold new_events. cbn [trace add_events]. rewrite Ht.
    subst s1. cbn [trace add_events]. rewrite <- !app_assoc, drop_app_length.
    rewrite !elem_of_app. right. right. right. by left. }
  destruct (render_3d_mosaic _ _ _) as [msg|mosaic_3d];
    [|destruct (save_png mosaic_3d)];
    cbn [snd]; rewrite ?add_events_app; cbn [_tile_cache heap add_events];
    (split; [done|]); (split; [by apply Hin|]); by exists tiles.
Qed.

End PipelineExtras.

(** ** More of the demo deployment *)

Module Scenario.

(** No preset file, no tile. *)
Definition fs_bare : FS Demo.Image := Demo.fs_of [] [].

(** The service after a startup on the complete deployment. *)
Definition warm : State Demo.Image Demo.Indices :=
  (Demo.startup Demo.fs_complete Demo.cold).2.

Definition warm_tiles : gmap Z Demo.Image := default ∅ (heap warm !! 0%nat).

(** An adjust stage that raises. *)
Definition apply_fails (img : Demo.Image) (p : Preset) (size max_per_color : Z)
  : string + Demo.Image := inl "out of memory".

End Scenario.

Lemma demo_tiles_complete : tiles_complete Demo.fs_complete (P "tiles").
Proof.
  intros idx f Hin.
  repeat (apply elem_of_cons in Hin as [[= -> ->] | Hin]);
    [by eexists; split; vm_compute.. |].
  by apply elem_of_nil in Hin.
Defined.

Lemma preset_loader_errors_witness :
  fs_exists Scenario.fs_bare PRESET_PATH = false ∧
  ∃ msg, (load_preset_from_json (Indices := Demo.Indices) Demo.float_of_str
            Demo.int_of_str Scenario.fs_bare PRESET_PATH Demo.cold).1 =
           inl (FileNotFoundError msg) ∧
         mentions msg (path_str PRESET_PATH).
Proof.
  split; [reflexivity|].
  destruct (proj1 (preset_loader_errors (Indices := Demo.Indices) Demo.float_of_str
                     Demo.int_of_str Scenario.fs_bare PRESET_PATH Demo.cold) eq_refl)
    as (msg & Hrun & Hm & _).
  exists msg. split; [exact Hrun | exact Hm].
Defined.

Lemma preset_loads_iff_fields_coerce_witness :
  fs_exists Demo.fs_complete PRESET_PATH = true ∧
  fs_json Demo.fs_complete PRESET_PATH = inr (PyDict {[ "gamma" := PyFloat 2%float ]}) ∧
  ∃ p, (load_preset_from_json (Indices := Demo.Indices) Demo.float_of_str
          Demo.int_of_str Demo.fs_complete PRESET_PATH Demo.cold).1 = inr p.
Proof.
  split; [reflexivity|]. split; [reflexivity|].
  apply (proj1 (preset_loads_iff_fields_coerce (Indices := Demo.Indices)
                  Demo.float_of_str Demo.int_of_str Demo.fs_complete PRESET_PATH
                  {[ "gamma" := PyFloat 2%float ]} Demo.cold eq_refl eq_refl)).
  repeat split; eexists; by vm_compute.
Defined.

Lemma tile_cache_population_witness :
  _tile_cache Demo.cold = None ∧
  (select_tiles_path (Indices := Demo.Indices) Demo.module_file Demo.fs_complete
     "tiles" Demo.cold).1 = inr (Some (P "tiles")) ∧
  tiles_complete Demo.fs_complete (P "tiles") ∧
  (Demo.load Demo.fs_complete "tiles" Demo.cold).1 = inr 0%nat ∧
  _tile_cache (Demo.load Demo.fs_complete "tiles" Demo.cold).2 = Some 0%nat.
Proof.
  split; [reflexivity|]. split; [reflexivity|]. split; [exact demo_tiles_complete|].
  destruct (tile_cache_population (Indices := Demo.Indices) Demo.module_file
              Demo.fs_complete "tiles" Demo.cold (P "tiles") eq_refl eq_refl
              demo_tiles_complete) as (Hrun & Hcache & _).
  split; [exact Hrun | exact Hcache].
Defined.

Lemma failed_load_is_retried_witness :
  let s1 := (Demo.load Demo.fs_one_missing "tiles" Demo.cold).2 in
  (∃ e, (Demo.load Demo.fs_one_missing "tiles" Demo.cold).1 = inl e) ∧
  (Demo.load Demo.fs_complete "tiles" s1).1 = inr (length (heap s1)) ∧
  _tile_cache (Demo.load Demo.fs_complete "tiles" s1).2 = Some (length (heap s1)).
Proof.
  intros s1.
  assert (Hfail : (Demo.load Demo.fs_one_missing "tiles" Demo.cold).1 =
                  inl (FileNotFoundError
                         (tile_not_found_message "RGB (35, 46, 59).png" (P "tiles"))))
    by by vm_compute.
  split; [by eexists|].
  destruct (failed_load_is_retried (Indices := Demo.Indices) Demo.module_file
              Demo.fs_one_missing "tiles" Demo.cold _ Demo.fs_complete "tiles"
              (P "tiles") Hfail eq_refl demo_tiles_complete)
    as (_ & _ & Hrun & Hcache).
  split; [exact Hrun | exact Hcache].
Defined.

Lemma request_success_witness :
  _global_preset Scenario.warm =
    Some (mkPreset 0%float 0%float 0 1%float 1%float 2%float) ∧
  _tile_cache Scenario.warm = Some 0%nat ∧
  (Demo.handle Scenario.fs_bare Demo.photo 96 Scenario.warm).1 =
    inr (StreamingResponse [] "image/png").
Proof.
  assert (Hp : _global_preset Scenario.warm =
               Some (mkPreset 0%float 0%float 0 1%float 1%float 2%float))
    by by vm_compute.
  assert (Hc : _tile_cache Scenario.warm = Some 0%nat) by by vm_compute.
  assert (Hheap : heap Scenario.warm !! 0%nat = Some Scenario.warm_tiles)
    by by vm_compute.
  split; [exact Hp|]. split; [exact Hc|].
  exact (f_equal fst
           (request_success Demo.module_file Demo.MAX_PER_COLOR Demo.decode_rgb
              Demo.apply_preset_once Demo.idx_image Demo.render_3d_mosaic Demo.save_png
              Scenario.fs_bare Demo.photo 96 Scenario.warm
              (mkPreset 0%float 0%float 0 1%float 1%float 2%float)
              [Byte.x89; Byte.x50; Byte.x4e; Byte.x47] "photo" "mosaic_2d" "mosaic_3d"
              [0; 1; 2; 3; 4] 0%nat Scenario.warm_tiles []
              Hp (or_intror eq_refl) eq_refl eq_refl eq_refl eq_refl Hc Hheap
              eq_refl eq_refl)).
Defined.

Lemma processing_failures_are_500_witness :
  _global_preset Demo.preset_only = Some Demo.preset_default ∧
  (generate_lego_mosaic_3d (Indices := Demo.Indices) Demo.module_file
     Demo.MAX_PER_COLOR Demo.decode_rgb Scenario.apply_fails Demo.idx_image
     Demo.render_3d_mosaic Demo.save_png Demo.fs_complete Demo.photo 64
     Demo.preset_only).1 =
    inl (HTTPException 500 ("Error generating 2D mosaic: " +:+ "out of memory")).
Proof.
  split; [reflexivity|].
  exact (f_equal fst
           (proj1 (processing_failures_are_500 (Indices := Demo.Indices)
                     Demo.module_file Demo.MAX_PER_COLOR Demo.decode_rgb
                     Scenario.apply_fails Demo.idx_image Demo.render_3d_mosaic
                     Demo.save_png Demo.fs_complete Demo.photo 64 Demo.preset_only
                     Demo.preset_default [Byte.x89; Byte.x50; Byte.x4e; Byte.x47]
                     "photo" eq_refl (or_introl eq_refl) eq_refl eq_refl)
              "out of memory" eq_refl)).
Defined.

Lemma render_stage_failures_witness :
  (Demo.load Demo.fs_empty "tiles" Demo.preset_only).1 =
    inl (FileNotFoundError missing_assets_message) ∧
  (Demo.handle Demo.fs_empty Demo.photo 64 Demo.preset_only).1 =
    inl (HTTPException 500 ("Error generating 3D mosaic: " +:+ missing_assets_message)) ∧
  _tile_cache (Demo.handle Demo.fs_empty Demo.photo 64 Demo.preset_only).2 = None.
Proof.
  assert (Hfail : (Demo.load Demo.fs_empty "tiles" Demo.preset_only).1 =
                  inl (FileNotFoundError missing_assets_message)) by by vm_compute.
  split; [exact Hfail|].
  destruct (proj1 (render_stage_failures Demo.module_file Demo.MAX_PER_COLOR
                     Demo.decode_rgb Demo.apply_preset_once Demo.idx_image
                     Demo.render_3d_mosaic Demo.save_png Demo.fs_empty Demo.photo 64
                     Demo.preset_only Demo.preset_default
                     [Byte.x89; Byte.x50; Byte.x4e; Byte.x47] "photo" "mosaic_2d"
                     [0; 1; 2; 3; 4] eq_refl (or_introl eq_refl) eq_refl eq_refl
                     eq_refl eq_refl) _ Hfail) as (Hrun & Hcache & _).
  split; [exact Hrun | exact Hcache].
Defined.

Lemma cached_requests_touch_no_disk_witness :
  is_Some (_tile_cache Scenario.warm) ∧
  Forall (λ e : event Demo.Image Demo.Indices, is_disk_event e = false)
    (new_events Scenario.warm
       (Demo.handle Scenario.fs_bare Demo.photo 64 Scenario.warm).2).
Proof.
  assert (Hc : is_Some (_tile_cache Scenario.warm)).
  { exists 0%nat. by vm_compute. }
  split; [exact Hc|].
  exact (proj1 (cached_requests_touch_no_disk Demo.module_file Demo.float_of_str
                  Demo.int_of_str Demo.MAX_PER_COLOR Demo.decode_rgb
                  Demo.apply_preset_once Demo.idx_image Demo.render_3d_mosaic
                  Demo.save_png Scenario.fs_bare Demo.photo 64 Scenario.warm) Hc).
Defined.

Lemma startup_fails_without_preset_witness :
  (∃ msg, (load_preset_from_json (Indices := Demo.Indices) Demo.float_of_str
             Demo.int_of_str Scenario.fs_bare PRESET_PATH Demo.cold).1 =
            inl (FileNotFoundError msg)) ∧
  (∃ msg, (Demo.startup Scenario.fs_bare Demo.cold).1 = inl (FileNotFoundError msg)) ∧
  shared (Demo.startup Scenario.fs_bare Demo.cold).2 = shared Demo.cold.
Proof.
  assert (Hfail : (load_preset_from_json (Indices := Demo.Indices) Demo.float_of_str
                     Demo.int_of_str Scenario.fs_bare PRESET_PATH Demo.cold).1 =
                  inl (FileNotFoundError
                         ("Preset JSON not found at: " +:+ path_str PRESET_PATH)))
    by by vm_compute.
  split; [by eexists|].
  destruct (startup_fails_without_preset Demo.module_file Demo.float_of_str
              Demo.int_of_str Scenario.fs_bare Demo.cold _ Hfail)
    as (Hrun & Hshared & _).
  split; [by eexists | exact Hshared].
Defined.

Lemma startup_fails_on_tiles_witness :
  _tile_cache Demo.cold = None ∧
  (Demo.startup Demo.fs_empty Demo.cold).1 =
    inl (FileNotFoundError missing_assets_message) ∧
  _global_preset (Demo.startup Demo.fs_empty Demo.cold).2 =
    Some (mkPreset 0%float 0%float 0 1%float 1%float 2%float) ∧
  _tile_cache (Demo.startup Demo.fs_empty Demo.cold).2 = None.
Proof.
  split; [reflexivity|].
  assert (Hp : (load_preset_from_json (Indices := Demo.Indices) Demo.float_of_str
                  Demo.int_of_str Demo.fs_empty PRESET_PATH Demo.cold).1 =
               inr (mkPreset 0%float 0%float 0 1%float 1%float 2%float))
    by by vm_compute.
  assert (Hfail : (Demo.load Demo.fs_empty "tiles" Demo.cold).1 =
                  inl (FileNotFoundError missing_assets_message)) by by vm_compute.
  exact (startup_fails_on_tiles Demo.module_file Demo.float_of_str Demo.int_of_str
           Demo.fs_empty Demo.cold _ _ eq_refl Hp Hfail).
Defined.

Lemma startup_success_witness :
  _tile_cache Demo.cold = None ∧
  tiles_complete Demo.fs_complete (P "tiles") ∧
  (Demo.startup Demo.fs_complete Demo.cold).1 = inr tt ∧
  _tile_cache (Demo.startup Demo.fs_complete Demo.cold).2 = Some 0%nat.
Proof.
  split; [reflexivity|]. split; [exact demo_tiles_complete|].
  assert (Hp : (load_preset_from_json (Indices := Demo.Indices) Demo.float_of_str
                  Demo.int_of_str Demo.fs_complete PRESET_PATH Demo.cold).1 =
               inr (mkPreset 0%float 0%float 0 1%float 1%float 2%float))
    by by vm_compute.
  destruct (startup_success Demo.module_file Demo.float_of_str Demo.int_of_str
              Demo.fs_complete Demo.cold _ (P "tiles") eq_refl Hp eq_refl
              demo_tiles_complete) as (Hrun & _ & Hcache & _).
  split; [exact Hrun | exact Hcache].
Defined.

Lemma request_populates_cache_lazily_witness :
  _tile_cache Demo.preset_only = None ∧
  tiles_complete Demo.fs_complete (P "tiles") ∧
  _tile_cache (Demo.handle Demo.fs_complete Demo.photo 64 Demo.preset_only).2 =
    Some 0%nat.
Proof.
  split; [reflexivity|]. split; [exact demo_tiles_complete|].
  exact (proj1 (request_populates_cache_lazily Demo.module_file Demo.MAX_PER_COLOR
                  Demo.decode_rgb Demo.apply_preset_once Demo.idx_image
                  Demo.render_3d_mosaic Demo.save_png Demo.fs_complete Demo.photo 64
                  Demo.preset_only Demo.preset_default
                  [Byte.x89; Byte.x50; Byte.x4e; Byte.x47] "photo" "mosaic_2d"
                  [0; 1; 2; 3; 4] (P "tiles") eq_refl (or_introl eq_refl) eq_refl
                  eq_refl eq_refl eq_refl eq_refl eq_refl demo_tiles_complete)).
Defined.

Lemma fallback_selection_never_loads_witness :
  let fs := Demo.fs_of [P "."; P "RGB (150, 160, 171).png"] [] in
  _tile_cache Demo.cold = None ∧
  fs_exists fs (P ".") = true ∧
  list_find (has_probe fs) (search_paths Demo.module_file "tiles") = None ∧
  (select_tiles_path (Indices := Demo.Indices) Demo.module_file fs "tiles"
     Demo.cold).1 = inr (Some (P ".")) ∧
  ∃ msg, (Demo.load fs "tiles" Demo.cold).1 = inl (FileNotFoundError msg).
Proof.
  intros fs.
  assert (Hfind : list_find (has_probe fs) (search_paths Demo.module_file "tiles") = None)
    by by vm_compute.
  split; [reflexivity|]. split; [reflexivity|]. split; [exact Hfind|].
  split; [by vm_compute|].
  exact (fallback_selection_never_loads (Indices := Demo.Indices) Demo.module_file
           fs "tiles" Demo.cold eq_refl eq_refl Hfind).
Defined.
